(** * The admin API client ([src/lib/api.ts]) as a shallow embedding

    The client is a set of [async] functions over three pieces of ambient
    browser state: [localStorage], [window.location.href] and the network
    reached through [fetch].  The embedding threads the first two through a
    small state-and-exception monad, records every request handed to [fetch]
    in a log, and takes the network's answer as a function of the request. *)

From Stdlib Require Import ZArith Ascii String List Bool Lia.
From stdpp Require Import base option list strings gmap pretty.

Local Open Scope string_scope.
Local Open Scope Z_scope.

(** ** JavaScript values

    The only JavaScript values the client inspects are the ones that
    [response.json()] hands back, plus [undefined] for a missing property.
    [undefined] is [None] of [option json].

    Strings are taken as their UTF-8 bytes (a [string] of Rocq), which is
    what [encodeURIComponent] and [URLSearchParams] work on; a JavaScript
    string with an unpaired surrogate has no such form and is not covered.

    Numbers are IEEE doubles in the source.  The client only ever asks two
    things of a number: whether it is truthy, and its [toString()].  Both are
    kept abstract in the class below; [Z] is the instance of integer-valued
    numbers on V8. *)

Class JsHost (number : Type) := {
  number_truthy : number -> bool;
  number_toString : number -> string;
  (** the wording of the [TypeError] raised on reading property [key] of
      [null] or [undefined]; it differs between engines *)
  nullish_read_message : forall (base key : string), string;
}.

#[global] Instance V8_Z : JsHost Z := {|
  number_truthy z := negb (z =? 0);
  number_toString z := pretty z;
  nullish_read_message base key :=
    "Cannot read properties of " ++ base ++ " (reading '" ++ key ++ "')";
|}.

#[warnings="-register-all"] Inductive json (number : Type) : Type :=
  | JNull
  | JBool (b : bool)
  | JNum (n : number)
  | JStr (s : string)
  | JArr (items : list (json number))
  | JObj (fields : gmap string (json number)).

Arguments JNull {number}.
Arguments JBool {number} b.
Arguments JNum {number} n.
Arguments JStr {number} s.
Arguments JArr {number} items.
Arguments JObj {number} fields.

(** The property names the client reads off a parsed body.  None of them is
    an own or inherited property of an array, a string, a number or a
    boolean, and none is on [Object.prototype], so reading one of them
    from a parsed value finds either an own property of an object or
    [undefined]. *)
Inductive property :=
  | P_message | P_error | P_errors | P_data | P_success
  | P_token | P_admin | P_email.

Definition property_name (p : property) : string :=
  match p with
  | P_message => "message" | P_error => "error" | P_errors => "errors"
  | P_data => "data" | P_success => "success"
  | P_token => "token" | P_admin => "admin" | P_email => "email"
  end.

(** What a [catch] clause can receive: an [Error] instance with its
    [message], or any other thrown value. *)
Inductive thrown :=
  | JsError (message : string)
  | NonError.

(** [interface ApiResponse<T>]; an absent field is [None]. *)
Record ApiResponse (number : Type) := {
  success : bool;
  data : option (json number);
  message : option (json number);
  error : option (json number);
  errors : option (json number);
}.

Arguments success {number} _.
Arguments data {number} _.
Arguments message {number} _.
Arguments error {number} _.
Arguments errors {number} _.

(** A [File] as far as the client and its callers look at it. *)
Record File := {
  file_name : string;
  file_type : string;
  file_size : Z;
}.

(** The [body] of a request: the value [JSON.stringify] was applied to, or
    the entries of a [FormData]. *)
Inductive payload (number : Type) :=
  | JsonBody (j : json number)
  | FormBody (entries : list (string * File)).

Arguments JsonBody {number} j.
Arguments FormBody {number} entries.

(** The second argument of [fetch]. *)
Record RequestInit (number : Type) := {
  method : option string;
  headers : gmap string string;
  body : option (payload number);
}.

Arguments method {number} _.
Arguments headers {number} _.
Arguments body {number} _.

(** A call of [fetch(url, init)]. *)
Record request (number : Type) := {
  url : string;
  init : RequestInit number;
}.

Arguments url {number} _.
Arguments init {number} _.

(** What the promise of [response.json()] settles to. *)
Inductive body_result (number : Type) :=
  | Parsed (j : json number)
  | BodyRejects (t : thrown).

Arguments Parsed {number} j.
Arguments BodyRejects {number} t.

(** What the promise of [fetch] settles to: a rejection (no response was
    obtained) or a response with its status and, later, its body. *)
Inductive fetch_result (number : Type) :=
  | FetchRejects (t : thrown)
  | Response (status : Z) (b : body_result number).

Arguments FetchRejects {number} t.
Arguments Response {number} status b.

(** [import.meta.env] *)
Record ImportMetaEnv := {
  PROD : bool;
  VITE_API_URL : option string;
}.

(** The browser state the client reads and writes, and the log of the
    requests it handed to [fetch]. *)
Record browser (number : Type) := {
  localStorage : gmap string string;
  location_href : string;
  sent : list (request number);
}.

Arguments localStorage {number} _.
Arguments location_href {number} _.
Arguments sent {number} _.

(** The parameter objects of the two list operations. *)
Inductive SortOrder := asc | desc.

Module ProductsParams.
Record t (number : Type) := {
  page : option number;
  limit : option number;
  search : option string;
  category : option string;
  status : option string;
  sortBy : option string;
  sortOrder : option SortOrder;
}.
Arguments page {number} _.
Arguments limit {number} _.
Arguments search {number} _.
Arguments category {number} _.
Arguments status {number} _.
Arguments sortBy {number} _.
Arguments sortOrder {number} _.
End ProductsParams.

Module OrdersParams.
Record t (number : Type) := {
  page : option number;
  limit : option number;
  status : option string;
  search : option string;
  sortBy : option string;
  sortOrder : option SortOrder;
  startDate : option string;
  endDate : option string;
}.
Arguments page {number} _.
Arguments limit {number} _.
Arguments status {number} _.
Arguments search {number} _.
Arguments sortBy {number} _.
Arguments sortOrder {number} _.
Arguments startDate {number} _.
Arguments endDate {number} _.
End OrdersParams.

(** [Order['status']] *)
Inductive OrderStatus := confirmed | processing | shipped | delivered | cancelled.

(** ** Percent-encoding

    Both encoders work byte by byte on the UTF-8 form of their argument. *)

Definition hex_digit (n : N) : ascii :=
  match n with
  | 0%N => "0" | 1%N => "1" | 2%N => "2" | 3%N => "3"
  | 4%N => "4" | 5%N => "5" | 6%N => "6" | 7%N => "7"
  | 8%N => "8" | 9%N => "9" | 10%N => "A" | 11%N => "B"
  | 12%N => "C" | 13%N => "D" | 14%N => "E" | _ => "F"
  end%char.

Definition percent_encode_byte (c : ascii) : string :=
  let n := N_of_ascii c in
  String "%" (String (hex_digit (n / 16)) (String (hex_digit (n mod 16)) "")).

Definition is_alphanumeric (c : ascii) : bool :=
  let n := N_of_ascii c in
  ((48 <=? n) && (n <=? 57) || (65 <=? n) && (n <=? 90)
   || (97 <=? n) && (n <=? 122))%N.

Definition one_of (set : string) (c : ascii) : bool :=
  existsb (Ascii.eqb c) (list_ascii_of_string set).

(** [encodeURIComponent]: everything is escaped except
    [A-Z a-z 0-9 - _ . ! ~ * ' ( )]. *)
Definition uri_unreserved (c : ascii) : bool :=
  is_alphanumeric c || one_of "-_.!~*'()" c.

Fixpoint encodeURIComponent (s : string) : string :=
  match s with
  | EmptyString => ""
  | String c rest =>
      (if uri_unreserved c then String c "" else percent_encode_byte c)
      ++ encodeURIComponent rest
  end.

(** [URLSearchParams]: an ordered list of name-value pairs, serialised by
    the [application/x-www-form-urlencoded] serialiser. *)
Module URLSearchParams.

Definition t := list (string * string).

Definition new : t := [].

Definition append (name value : string) (sp : t) : t :=
  (sp ++ [(name, value)])%list.

(** The byte serialiser: [* - . _] and alphanumerics stay, a space becomes
    [+], every other byte is percent-encoded. *)
Definition serialize_byte (c : ascii) : string :=
  if Ascii.eqb c " " then "+"
  else if is_alphanumeric c || one_of "*-._" c then String c ""
  else percent_encode_byte c.

Fixpoint serialize_bytes (s : string) : string :=
  match s with
  | EmptyString => ""
  | String c rest => serialize_byte c ++ serialize_bytes rest
  end.

Definition serialize_pair (nv : string * string) : string :=
  serialize_bytes nv.1 ++ "=" ++ serialize_bytes nv.2.

Fixpoint toString (sp : t) : string :=
  match sp with
  | [] => ""
  | [nv] => serialize_pair nv
  | nv :: rest => serialize_pair nv ++ "&" ++ toString rest
  end.

End URLSearchParams.

(** [String.prototype.includes] *)
Fixpoint includes (s sub : string) : bool :=
  String.prefix sub s
  || match s with
     | EmptyString => false
     | String _ rest => includes rest sub
     end.

(** [a || b] on an optional string, as in [VITE_API_URL || ''] *)
Definition string_truthy (s : option string) : bool :=
  match s with
  | Some s => negb (String.eqb s "")
  | None => false
  end.

Definition string_or (a : option string) (b : string) : string :=
  match a with
  | Some s => if String.eqb s "" then b else s
  | None => b
  end.

(** The module-level constant [API_URL]. *)
Definition API_URL (env : ImportMetaEnv) : string :=
  if PROD env
  then string_or (VITE_API_URL env) ""
  else string_or (VITE_API_URL env) "http://localhost:3000".

(** Whether [response.ok] holds of a status. *)
Definition response_ok (status : Z) : bool :=
  (200 <=? status) && (status <=? 299).

Definition SortOrder_name (o : SortOrder) : string :=
  match o with asc => "asc" | desc => "desc" end.

Definition OrderStatus_name (s : OrderStatus) : string :=
  match s with
  | confirmed => "confirmed" | processing => "processing"
  | shipped => "shipped" | delivered => "delivered"
  | cancelled => "cancelled"
  end.

(** How an evaluation completes: normally, or by throwing (for an [async]
    function: its promise is fulfilled, or rejected). *)
Inductive completion (A : Type) :=
  | Returns (a : A)
  | Throws (t : thrown).

Arguments Returns {A} a.
Arguments Throws {A} t.

(** ** Pure parts of the pages *)

(** [v !== 'all' ? v : undefined] *)
Definition unless_all (v : string) : option string :=
  if String.eqb v "all" then None else Some v.

(** [s || undefined] *)
Definition or_undefined (s : string) : option string :=
  if String.eqb s "" then None else Some s.

(** [menuItems] of [DashboardLayout], as titles and paths. *)
Definition menuItems : list (string * string) :=
  [ ("Analytics", "/dashboard/analytics");
    ("Product Lists", "/dashboard/products");
    ("Add Products", "/dashboard/products/add");
    ("Order Lists", "/dashboard/orders");
    ("Order Detail", "/dashboard/orders/detail");
    ("App Logs", "/dashboard/logs") ].

(** [isActive] of [DashboardLayout], for the path [item.2] *)
Definition isActive (pathname : string) (item : string * string) : bool :=
  String.eqb pathname item.2
  || (String.eqb pathname "/dashboard"
      && String.eqb item.2 "/dashboard/analytics").

(** [array.filter((_, i) => keep(i))] *)
Fixpoint filter_index {A} (keep : nat -> bool) (i : nat) (l : list A)
  : list A :=
  match l with
  | [] => []
  | x :: rest =>
      if keep i then x :: filter_index keep (S i) rest
      else filter_index keep (S i) rest
  end.

(** [handleRemoveUrlInput] of [AddProducts], as the new [urlInputs] *)
Definition handleRemoveUrlInput (index : nat) (urlInputs : list string)
  : list string :=
  if (1 <? length urlInputs)%nat
  then filter_index (fun i => negb (i =? index)%nat) 0 urlInputs
  else urlInputs.

(** The filter of [handleFileUpload]: an allowed type and at most 10 MB. *)
Definition validTypes : list string :=
  [ "image/jpeg"; "image/jpg"; "image/png"; "image/gif"; "image/webp" ].

Definition valid_file (file : File) : bool :=
  existsb (String.eqb (file_type file)) validTypes
  && negb (10 * 1024 * 1024 <? file_size file).

Definition validFiles (files : list File) : list File :=
  List.filter valid_file files.

(** Where the client runs: the build's [import.meta.env], and how the
    network answers a request. *)
Class Environment (number : Type) := {
  import_meta_env : ImportMetaEnv;
  network : request number -> fetch_result number;
}.

(** ** The client *)

Section Client.

Context {number : Type} {host : JsHost number}
  {environment : Environment number}.

Abbreviation json := (json number).
Abbreviation value := (option json).
Abbreviation ApiResponse := (ApiResponse number).
Abbreviation browser := (browser number).
Abbreviation request := (request number).
Abbreviation RequestInit := (RequestInit number).

(** *** JavaScript operators on values *)

(** [ToBoolean] *)
Definition truthy (v : value) : bool :=
  match v with
  | None => false
  | Some JNull => false
  | Some (JBool b) => b
  | Some (JNum n) => number_truthy n
  | Some (JStr s) => negb (String.eqb s "")
  | Some (JArr _) => true
  | Some (JObj _) => true
  end.

(** [ToString], which [localStorage.setItem] applies to its arguments.  An
    array is joined with commas, [null] items giving the empty string. *)
Fixpoint json_toString (j : json) : string :=
  match j with
  | JNull => "null"
  | JBool b => if b then "true" else "false"
  | JNum n => number_toString n
  | JStr s => s
  | JArr items =>
      String.concat ","
        (map (fun x => match x with JNull => "" | _ => json_toString x end)
             items)
  | JObj _ => "[object Object]"
  end.

Definition ToString (v : value) : string :=
  match v with
  | None => "undefined"
  | Some j => json_toString j
  end.

(** *** Computations: browser state and exceptions

    A computation runs from a browser state to a new one and either
    returns or throws ([completion]); what it did to the state before
    throwing stays done. *)

Definition M (A : Type) : Type := browser -> browser * completion A.

Definition ret {A} (a : A) : M A := fun w => (w, Returns a).

Definition bind {A B} (m : M A) (k : A -> M B) : M B :=
  fun w =>
    match m w with
    | (w', Returns a) => k a w'
    | (w', Throws t) => (w', Throws t)
    end.

Definition throw {A} (t : thrown) : M A := fun w => (w, Throws t).

(** [try { m } catch (error) { handler error }] *)
Definition try_catch {A} (m : M A) (handler : thrown -> M A) : M A :=
  fun w =>
    match m w with
    | (w', Returns a) => (w', Returns a)
    | (w', Throws t) => handler t w'
    end.

Notation "x <- m ;; k" := (bind m (fun x => k))
  (at level 100, m at next level, right associativity).
Notation "m ;;; k" := (bind m (fun _ => k))
  (at level 100, right associativity).

(** [localStorage] *)
Definition getItem (key : string) : M (option string) :=
  fun w => (w, Returns (localStorage w !! key)).

Definition setItem (key val : string) : M unit :=
  fun w =>
    ({| localStorage := <[key := val]> (localStorage w);
        location_href := location_href w;
        sent := sent w |}, Returns tt).

Definition removeItem (key : string) : M unit :=
  fun w =>
    ({| localStorage := delete key (localStorage w);
        location_href := location_href w;
        sent := sent w |}, Returns tt).

(** [window.location.href = target] *)
Definition set_location_href (target : string) : M unit :=
  fun w =>
    ({| localStorage := localStorage w;
        location_href := target;
        sent := sent w |}, Returns tt).

(** Property [p] of a parsed value that is not [null]: the own property
    of an object, [undefined] for anything else. *)
Definition property_of (j : json) (p : property) : value :=
  match j with
  | JObj fields => fields !! property_name p
  | _ => None
  end.

(** Reading [v.p]: a [TypeError] on [null] and [undefined]. *)
Definition get (v : value) (p : property) : M value :=
  match v with
  | None =>
      throw (JsError (nullish_read_message "undefined" (property_name p)))
  | Some JNull =>
      throw (JsError (nullish_read_message "null" (property_name p)))
  | Some j => ret (property_of j p)
  end.

(** [v?.p] *)
Definition get_optional (v : value) (p : property) : M value :=
  match v with
  | None => ret None
  | Some JNull => ret None
  | _ => get v p
  end.

(** [a || b], with [b] evaluated only when [a] is falsy *)
Definition or_else (a : value) (b : M value) : M value :=
  if truthy a then ret a else b.

(** *** The network *)

(** [await fetch(url, init)]: the request is logged; a rejection is thrown,
    a response is returned with its status and the result of its body. *)
Definition fetch (r : request) : M (Z * body_result number) :=
  fun w =>
    let w' := {| localStorage := localStorage w;
                 location_href := location_href w;
                 sent := (sent w ++ [r])%list |} in
    match network r with
    | FetchRejects t => (w', Throws t)
    | Response status b => (w', Returns (status, b))
    end.

(** [await response.json()] *)
Definition response_json (b : body_result number) : M json :=
  match b with
  | Parsed j => ret j
  | BodyRejects t => throw t
  end.

(** The envelope every [catch] clause of the client builds. *)
Definition caught (e : thrown) : ApiResponse :=
  {| success := false;
     data := None;
     message := Some (JStr match e with
                           | JsError m => m
                           | NonError => "Network error"
                           end);
     error := Some (JStr "Network error");
     errors := None |}.

Definition getAdminToken : M (option string) := getItem "adminToken".

Definition apiRequest (endpoint : string) (options : RequestInit)
  : M ApiResponse :=
  try_catch
    (token <- getAdminToken ;;
     let headers0 : gmap string string :=
       headers options ∪ {[ "Content-Type" := "application/json" ]} in
     let headers1 :=
       match token with
       | Some t =>
           if String.eqb t "" then headers0
           else <[ "Authorization" := "Bearer " ++ t ]> headers0
       | None => headers0
       end in
     response <- fetch {| url := API_URL import_meta_env ++ endpoint;
                          init := {| method := method options;
                                     headers := headers1;
                                     body := body options |} |} ;;
     data <- response_json response.2 ;;
     if negb (response_ok response.1) then
       (if response.1 =? 401 then
          removeItem "adminToken" ;;;
          removeItem "adminEmail" ;;;
          set_location_href "/login"
        else ret tt) ;;;
       m <- get (Some data) P_message ;;
       msg <- or_else m
                (e <- get (Some data) P_error ;;
                 or_else e (ret (Some (JStr "Request failed")))) ;;
       e <- get (Some data) P_error ;;
       es <- get (Some data) P_errors ;;
       ret {| success := false; data := None; message := msg;
              error := e; errors := es |}
     else
       d <- get (Some data) P_data ;;
       payload <- or_else d (ret (Some data)) ;;
       m <- get (Some data) P_message ;;
       ret {| success := true; data := payload; message := m;
              error := None; errors := None |})
    (fun e => ret (caught e)).

(** *** Admin auth *)

Definition login (email password : string) : M ApiResponse :=
  try_catch
    (let API_URL :=
       string_or (VITE_API_URL import_meta_env) "http://localhost:3000" in
     res <- fetch
       {| url := API_URL ++ "/api/admin/auth/login";
          init :=
            {| method := Some "POST";
               headers := {[ "Content-Type" := "application/json" ]};
               body := Some (JsonBody (JObj
                        (<[ "password" := JStr password ]>
                           {[ "email" := JStr email ]}))) |} |} ;;
     data <- response_json res.2 ;;
     rejected <-
       (if negb (response_ok res.1) then ret true
        else s <- get (Some data) P_success ;; ret (negb (truthy s))) ;;
     if rejected : bool then
       m <- get (Some data) P_message ;;
       msg <- or_else m (ret (Some (JStr "Login failed"))) ;;
       e <- get (Some data) P_error ;;
       ret {| success := false; data := None; message := msg;
              error := e; errors := None |}
     else
       d <- get (Some data) P_data ;;
       token <- get_optional d P_token ;;
       (if truthy token then
          setItem "adminToken" (ToString token) ;;;
          admin <- get d P_admin ;;
          email <- get admin P_email ;;
          setItem "adminEmail" (ToString email)
        else ret tt) ;;;
       m <- get (Some data) P_message ;;
       ret {| success := true; data := d; message := m;
              error := None; errors := None |})
    (fun e => ret (caught e)).

Definition no_options : RequestInit :=
  {| method := None; headers := ∅; body := None |}.

Definition me : M ApiResponse :=
  apiRequest "/api/admin/auth/me" no_options.

Definition logout : M ApiResponse :=
  removeItem "adminToken" ;;;
  removeItem "adminEmail" ;;;
  ret {| success := true; data := None; message := None;
         error := None; errors := None |}.

Definition isAuthenticated : M bool :=
  token <- getAdminToken ;;
  ret (string_truthy token).

(** *** Products *)

(** [if (v) searchParams.append(name, v.toString())] for a number *)
Definition append_number (name : string) (v : option number)
    (sp : URLSearchParams.t) : URLSearchParams.t :=
  match v with
  | Some n =>
      if number_truthy n
      then URLSearchParams.append name (number_toString n) sp
      else sp
  | None => sp
  end.

(** [if (v) searchParams.append(name, v)] for a string *)
Definition append_string (name : string) (v : option string)
    (sp : URLSearchParams.t) : URLSearchParams.t :=
  match v with
  | Some s =>
      if String.eqb s "" then sp else URLSearchParams.append name s sp
  | None => sp
  end.

Definition products_searchParams (params : option (ProductsParams.t number))
  : URLSearchParams.t :=
  let sp := URLSearchParams.new in
  let sp := append_number "page" (params ≫= ProductsParams.page) sp in
  let sp := append_number "limit" (params ≫= ProductsParams.limit) sp in
  let sp := append_string "search" (params ≫= ProductsParams.search) sp in
  let sp :=
    append_string "category" (params ≫= ProductsParams.category) sp in
  let sp := append_string "status" (params ≫= ProductsParams.status) sp in
  let sp := append_string "sortBy" (params ≫= ProductsParams.sortBy) sp in
  let sp :=
    append_string "sortOrder"
      (SortOrder_name <$> (params ≫= ProductsParams.sortOrder)) sp in
  sp.

(** [`${base}${queryString ? `?${queryString}` : ''}`] *)
Definition with_query (base queryString : string) : string :=
  base ++ (if String.eqb queryString "" then "" else "?" ++ queryString).

Definition getProducts_endpoint (params : option (ProductsParams.t number))
  : string :=
  with_query "/api/admin/products"
    (URLSearchParams.toString (products_searchParams params)).

Definition getProducts (params : option (ProductsParams.t number))
  : M ApiResponse :=
  apiRequest (getProducts_endpoint params) no_options.

Definition getProduct (id : string) : M ApiResponse :=
  apiRequest ("/api/admin/products/" ++ id) no_options.

Definition with_json (verb : string) (data : json) : RequestInit :=
  {| method := Some verb; headers := ∅; body := Some (JsonBody data) |}.

Definition createProduct (data : json) : M ApiResponse :=
  apiRequest "/api/admin/products" (with_json "POST" data).

Definition updateProduct (id : string) (data : json) : M ApiResponse :=
  apiRequest ("/api/admin/products/" ++ id) (with_json "PUT" data).

Definition updatePricing (id : string) (data : json) : M ApiResponse :=
  apiRequest ("/api/admin/products/" ++ id ++ "/pricing")
    (with_json "PATCH" data).

Definition delete_options : RequestInit :=
  {| method := Some "DELETE"; headers := ∅; body := None |}.

Definition deleteProduct (id : string) : M ApiResponse :=
  apiRequest ("/api/admin/products/" ++ id) delete_options.

Definition getCategories : M ApiResponse :=
  apiRequest "/api/admin/products/categories/list" no_options.

(** *** Uploads *)

(** The body shared by [uploadImage] and [uploadImages], which differ in
    the endpoint and in the entries of the form. *)
Definition upload (endpoint : string) (formData : list (string * File))
  : M ApiResponse :=
  try_catch
    (token <- getItem "adminToken" ;;
     let headers0 : gmap string string :=
       match token with
       | Some t =>
           if String.eqb t "" then ∅
           else {[ "Authorization" := "Bearer " ++ t ]}
       | None => ∅
       end in
     response <- fetch {| url := API_URL import_meta_env ++ endpoint;
                          init := {| method := Some "POST";
                                     headers := headers0;
                                     body := Some (FormBody formData) |} |} ;;
     data <- response_json response.2 ;;
     if negb (response_ok response.1) then
       (if response.1 =? 401 then
          removeItem "adminToken" ;;;
          removeItem "adminEmail" ;;;
          set_location_href "/login"
        else ret tt) ;;;
       m <- get (Some data) P_message ;;
       msg <- or_else m (ret (Some (JStr "Upload failed"))) ;;
       e <- get (Some data) P_error ;;
       ret {| success := false; data := None; message := msg;
              error := e; errors := None |}
     else
       d <- get (Some data) P_data ;;
       m <- get (Some data) P_message ;;
       ret {| success := true; data := d; message := m;
              error := None; errors := None |})
    (fun e => ret (caught e)).

Definition uploadImage (file : File) : M ApiResponse :=
  upload "/api/admin/upload/image" [("image", file)].

Definition uploadImages (files : list File) : M ApiResponse :=
  upload "/api/admin/upload/images" (map (fun file => ("images", file)) files).

Definition deleteImage (publicId : string) : M ApiResponse :=
  apiRequest ("/api/admin/upload/image/" ++ encodeURIComponent publicId)
    delete_options.

(** *** Orders *)

Definition orders_searchParams (params : option (OrdersParams.t number))
  : URLSearchParams.t :=
  let sp := URLSearchParams.new in
  let sp := append_number "page" (params ≫= OrdersParams.page) sp in
  let sp := append_number "limit" (params ≫= OrdersParams.limit) sp in
  let sp := append_string "status" (params ≫= OrdersParams.status) sp in
  let sp := append_string "search" (params ≫= OrdersParams.search) sp in
  let sp := append_string "sortBy" (params ≫= OrdersParams.sortBy) sp in
  let sp :=
    append_string "sortOrder"
      (SortOrder_name <$> (params ≫= OrdersParams.sortOrder)) sp in
  let sp :=
    append_string "startDate" (params ≫= OrdersParams.startDate) sp in
  let sp := append_string "endDate" (params ≫= OrdersParams.endDate) sp in
  sp.

Definition getOrders_endpoint (params : option (OrdersParams.t number))
  : string :=
  with_query "/api/admin/orders"
    (URLSearchParams.toString (orders_searchParams params)).

Definition getOrders (params : option (OrdersParams.t number))
  : M ApiResponse :=
  apiRequest (getOrders_endpoint params) no_options.

Definition getStats : M ApiResponse :=
  apiRequest "/api/admin/orders/stats" no_options.

Definition getOrder (id : string) : M ApiResponse :=
  apiRequest ("/api/admin/orders/" ++ id) no_options.

(** [JSON.stringify({ status, tracking })] leaves an [undefined]
    [tracking] out. *)
Definition status_body (status : OrderStatus) (tracking : option json)
  : json :=
  let fields : gmap string json :=
    {[ "status" := JStr (OrderStatus_name status) ]} in
  JObj match tracking with
       | Some t => <[ "tracking" := t ]> fields
       | None => fields
       end.

Definition updateStatus (id : string) (status : OrderStatus)
    (tracking : option json) : M ApiResponse :=
  apiRequest ("/api/admin/orders/" ++ id ++ "/status")
    (with_json "PATCH" (status_body status tracking)).

Definition getUserOrders (userId : string) : M ApiResponse :=
  apiRequest ("/api/admin/orders/user/" ++ userId) no_options.

(** *** Every operation that returns an envelope *)

Inductive operation :=
  | Login (email password : string)
  | Me
  | Logout
  | GetProducts (params : option (ProductsParams.t number))
  | GetProduct (id : string)
  | CreateProduct (data : json)
  | UpdateProduct (id : string) (data : json)
  | UpdatePricing (id : string) (data : json)
  | DeleteProduct (id : string)
  | GetCategories
  | UploadImage (file : File)
  | UploadImages (files : list File)
  | DeleteImage (publicId : string)
  | GetOrders (params : option (OrdersParams.t number))
  | GetStats
  | GetOrder (id : string)
  | UpdateStatus (id : string) (status : OrderStatus)
      (tracking : option json)
  | GetUserOrders (userId : string).

Definition run (op : operation) : M ApiResponse :=
  match op with
  | Login email password => login email password
  | Me => me
  | Logout => logout
  | GetProducts params => getProducts params
  | GetProduct id => getProduct id
  | CreateProduct data => createProduct data
  | UpdateProduct id data => updateProduct id data
  | UpdatePricing id data => updatePricing id data
  | DeleteProduct id => deleteProduct id
  | GetCategories => getCategories
  | UploadImage file => uploadImage file
  | UploadImages files => uploadImages files
  | DeleteImage publicId => deleteImage publicId
  | GetOrders params => getOrders params
  | GetStats => getStats
  | GetOrder id => getOrder id
  | UpdateStatus id status tracking => updateStatus id status tracking
  | GetUserOrders userId => getUserOrders userId
  end.

(** The operations that go through [apiRequest]. *)
Definition through_apiRequest (op : operation) : bool :=
  match op with
  | Login _ _ | Logout | UploadImage _ | UploadImages _ => false
  | _ => true
  end.

(** The operations that call [fetch]: all but [logout]. *)
Definition sends_a_request (op : operation) : bool :=
  match op with
  | Logout => false
  | _ => true
  end.

(** The operations that send the stored token along: the ones through
    [apiRequest], and the two uploads. *)
Definition authenticated (op : operation) : bool :=
  match op with
  | Login _ _ | Logout => false
  | _ => true
  end.

(** *** The callers in the pages

    The handlers of the pages are taken as far as they touch the client
    and the browser state; what they do to the React state of their
    component is left out. *)

(** [navigate(to)] of the router, as the change of location it makes. *)
Definition navigate (to : string) : M unit := set_location_href to.

(** [handleLogout] of [DashboardLayout] *)
Definition handleLogout : M unit :=
  removeItem "adminToken" ;;;
  removeItem "adminEmail" ;;;
  navigate "/login".

(** The effect [AdminDashboard] runs when it mounts. *)
Definition AdminDashboard_effect : M unit :=
  token <- getItem "adminToken" ;;
  if negb (string_truthy token) then navigate "/login" else ret tt.

(** The parameter object [fetchOrders] of [OrderLists] builds from the
    state of the page. *)
Definition fetchOrders_params (page limit : number) (search status : string)
  : OrdersParams.t number :=
  {| OrdersParams.page := Some page;
     OrdersParams.limit := Some limit;
     OrdersParams.search := or_undefined search;
     OrdersParams.status := unless_all status;
     OrdersParams.sortBy := Some "createdAt";
     OrdersParams.sortOrder := Some desc;
     OrdersParams.startDate := None;
     OrdersParams.endDate := None |}.

(** The parameter object [fetchProducts] of [ProductLists] builds. *)
Definition fetchProducts_params (page limit : number)
    (search category status : string) : ProductsParams.t number :=
  {| ProductsParams.page := Some page;
     ProductsParams.limit := Some limit;
     ProductsParams.search := or_undefined search;
     ProductsParams.category := unless_all category;
     ProductsParams.status := unless_all status;
     ProductsParams.sortBy := Some "createdAt";
     ProductsParams.sortOrder := Some desc |}.

(** The upload [handleFileUpload] of [AddProducts] makes: none when no
    file is valid, the single-file one for one valid file, the
    multi-file one otherwise. *)
Definition handleFileUpload (files : list File) : M (option ApiResponse) :=
  match validFiles files with
  | [] => ret None
  | [file] => response <- uploadImage file ;; ret (Some response)
  | several => response <- uploadImages several ;; ret (Some response)
  end.

End Client.

(** ** Sample deployments and browser states, used by the examples *)

Definition production_build : ImportMetaEnv :=
  {| PROD := true; VITE_API_URL := None |}.

(** A production build whose network gives the same answer to every
    request. *)
Definition answering (o : fetch_result Z) : Environment Z :=
  {| import_meta_env := production_build; network := fun _ => o |}.

Definition development_build : ImportMetaEnv :=
  {| PROD := false; VITE_API_URL := Some "http://localhost:4000" |}.

(** A development build, likewise. *)
Definition local_backend (o : fetch_result Z) : Environment Z :=
  {| import_meta_env := development_build; network := fun _ => o |}.

Definition signed_out : browser Z :=
  {| localStorage := ∅; location_href := "/login"; sent := [] |}.

Definition signed_in : browser Z :=
  {| localStorage :=
       <[ "adminEmail" := "admin@example.com" ]> {[ "adminToken" := "tok" ]};
     location_href := "/dashboard";
     sent := [] |}.

(** ** Vocabulary of the statements *)

(** The names of the query parameters of the two list operations. *)
Inductive list_param :=
  | Q_page | Q_limit | Q_search | Q_category | Q_status
  | Q_sortBy | Q_sortOrder | Q_startDate | Q_endDate.

Definition list_param_name (q : list_param) : string :=
  match q with
  | Q_page => "page" | Q_limit => "limit" | Q_search => "search"
  | Q_category => "category" | Q_status => "status"
  | Q_sortBy => "sortBy" | Q_sortOrder => "sortOrder"
  | Q_startDate => "startDate" | Q_endDate => "endDate"
  end.

(** A field that is not [undefined]. *)
Definition is_set {A} (v : option A) : bool :=
  match v with Some _ => true | None => false end.

Section Shapes.

Context {number : Type}.

(** The two shapes of the spec's response envelope. *)
Definition success_with_data (r : ApiResponse number) : Prop :=
  success r = true /\ is_Some (data r).

Definition failure_with_message (r : ApiResponse number) : Prop :=
  success r = false /\ is_Some (message r).

(** The two persisted entries. *)
Definition both_cleared (w : browser number) : Prop :=
  localStorage w !! "adminToken" = None
  /\ localStorage w !! "adminEmail" = None.

(** Whether a parameter object of [getProducts] sets a field; a name that
    is no field of the object is not set. *)
Definition products_sets (params : option (ProductsParams.t number))
    (q : list_param) : bool :=
  match q with
  | Q_page => is_set (params ≫= ProductsParams.page)
  | Q_limit => is_set (params ≫= ProductsParams.limit)
  | Q_search => is_set (params ≫= ProductsParams.search)
  | Q_category => is_set (params ≫= ProductsParams.category)
  | Q_status => is_set (params ≫= ProductsParams.status)
  | Q_sortBy => is_set (params ≫= ProductsParams.sortBy)
  | Q_sortOrder => is_set (params ≫= ProductsParams.sortOrder)
  | Q_startDate | Q_endDate => false
  end.

(** The same for [getOrders]. *)
Definition orders_sets (params : option (OrdersParams.t number))
    (q : list_param) : bool :=
  match q with
  | Q_page => is_set (params ≫= OrdersParams.page)
  | Q_limit => is_set (params ≫= OrdersParams.limit)
  | Q_status => is_set (params ≫= OrdersParams.status)
  | Q_search => is_set (params ≫= OrdersParams.search)
  | Q_sortBy => is_set (params ≫= OrdersParams.sortBy)
  | Q_sortOrder => is_set (params ≫= OrdersParams.sortOrder)
  | Q_startDate => is_set (params ≫= OrdersParams.startDate)
  | Q_endDate => is_set (params ≫= OrdersParams.endDate)
  | Q_category => false
  end.

(** What a caller can tell of a run that ended in a [catch] clause: the
    envelope of the clause, and a state that is as before but for the
    request log. *)
Definition caught_with (t : thrown) (w : browser number)
    (out : browser number * completion (ApiResponse number)) : Prop :=
  exists w',
    out = (w', Returns (caught t))
    /\ localStorage w' = localStorage w
    /\ location_href w' = location_href w.

End Shapes.

(** The [Authorization] header that goes with a stored token. *)
Definition bearer (token : option string) : option string :=
  match token with
  | Some t => if String.eqb t "" then None else Some ("Bearer " ++ t)
  | None => None
  end.

Section Sends.

Context {number : Type} {host : JsHost number}.

(** The replies that make [login] report a failure: no response, a body
    that does not parse, a status outside 2xx, or a body whose [success]
    field is falsy. *)
Definition login_refused (o : fetch_result number) : bool :=
  match o with
  | FetchRejects _ => true
  | Response _ (BodyRejects _) => true
  | Response status (Parsed body) =>
      negb (response_ok status) || negb (truthy (property_of body P_success))
  end.

(** Whether [if (v) append(...)] appends for a number: it is set and
    truthy. *)
Definition number_sent (v : option number) : bool :=
  match v with Some n => number_truthy n | None => false end.

(** Whether a parameter object of [getProducts] makes the operation send
    a parameter, and with which value. *)
Definition products_sends (params : option (ProductsParams.t number))
    (q : list_param) : bool :=
  match q with
  | Q_page => number_sent (params ≫= ProductsParams.page)
  | Q_limit => number_sent (params ≫= ProductsParams.limit)
  | Q_search => string_truthy (params ≫= ProductsParams.search)
  | Q_category => string_truthy (params ≫= ProductsParams.category)
  | Q_status => string_truthy (params ≫= ProductsParams.status)
  | Q_sortBy => string_truthy (params ≫= ProductsParams.sortBy)
  | Q_sortOrder => is_set (params ≫= ProductsParams.sortOrder)
  | Q_startDate | Q_endDate => false
  end.

Definition products_value (params : option (ProductsParams.t number))
    (q : list_param) : string :=
  match q with
  | Q_page => from_option number_toString "" (params ≫= ProductsParams.page)
  | Q_limit =>
      from_option number_toString "" (params ≫= ProductsParams.limit)
  | Q_search => default "" (params ≫= ProductsParams.search)
  | Q_category => default "" (params ≫= ProductsParams.category)
  | Q_status => default "" (params ≫= ProductsParams.status)
  | Q_sortBy => default "" (params ≫= ProductsParams.sortBy)
  | Q_sortOrder =>
      from_option SortOrder_name "" (params ≫= ProductsParams.sortOrder)
  | Q_startDate | Q_endDate => ""
  end.

(** The same for [getOrders]. *)
Definition orders_sends (params : option (OrdersParams.t number))
    (q : list_param) : bool :=
  match q with
  | Q_page => number_sent (params ≫= OrdersParams.page)
  | Q_limit => number_sent (params ≫= OrdersParams.limit)
  | Q_status => string_truthy (params ≫= OrdersParams.status)
  | Q_search => string_truthy (params ≫= OrdersParams.search)
  | Q_sortBy => string_truthy (params ≫= OrdersParams.sortBy)
  | Q_sortOrder => is_set (params ≫= OrdersParams.sortOrder)
  | Q_startDate => string_truthy (params ≫= OrdersParams.startDate)
  | Q_endDate => string_truthy (params ≫= OrdersParams.endDate)
  | Q_category => false
  end.

Definition orders_value (params : option (OrdersParams.t number))
    (q : list_param) : string :=
  match q with
  | Q_page => from_option number_toString "" (params ≫= OrdersParams.page)
  | Q_limit => from_option number_toString "" (params ≫= OrdersParams.limit)
  | Q_status => default "" (params ≫= OrdersParams.status)
  | Q_search => default "" (params ≫= OrdersParams.search)
  | Q_sortBy => default "" (params ≫= OrdersParams.sortBy)
  | Q_sortOrder =>
      from_option SortOrder_name "" (params ≫= OrdersParams.sortOrder)
  | Q_startDate => default "" (params ≫= OrdersParams.startDate)
  | Q_endDate => default "" (params ≫= OrdersParams.endDate)
  | Q_category => ""
  end.

End Sends.

(** The value of a hexadecimal digit and the decoding of percent-encoded
    text.  The client never decodes; the two serve to show that
    [encodeURIComponent] loses nothing. *)
Definition hex_value (c : ascii) : N :=
  let n := N_of_ascii c in
  (if (48 <=? n) && (n <=? 57) then n - 48
   else if (65 <=? n) && (n <=? 70) then n - 55
   else 0)%N.

Fixpoint percent_decode (s : string) : string :=
  match s with
  | EmptyString => EmptyString
  | String c rest =>
      if Ascii.eqb c "%" then
        match rest with
        | String h (String l rest') =>
            String (ascii_of_N (16 * hex_value h + hex_value l))
                   (percent_decode rest')
        | _ => String c (percent_decode rest)
        end
      else String c (percent_decode rest)
  end.


(** The characters of a string. *)
Abbreviation chars := list_ascii_of_string.

(** The two separators of a query string, and the lists of characters
    free of them. *)
Definition separator (c : ascii) : bool :=
  Ascii.eqb c "=" || Ascii.eqb c "&".

Definition plain (l : list ascii) : Prop :=
  Forall (fun c => separator c = false) l.

(** The pairs of a query all carry the name of a parameter out of
    [sets]. *)
Definition named_by (sets : list_param -> bool) (sp : URLSearchParams.t)
  : Prop :=
  forall nv, nv ∈ sp -> exists q, nv.1 = list_param_name q /\ sets q = true.

(** Sample replies and parameter objects of the examples. *)

(** What [response.json()] throws on an HTML error page. *)
Definition html_error_page : thrown :=
  JsError "Unexpected token < in JSON at position 0".

(** A login reply that carries a token but no [admin]. *)
Definition token_without_admin : fetch_result Z :=
  Response 200
    (Parsed (JObj (<[ "data" := JObj {[ "token" := JStr "t0" ]} ]>
                     {[ "success" := JBool true ]}))).

(** A well-formed login reply. *)
Definition token_and_admin : fetch_result Z :=
  Response 200
    (Parsed (JObj
      (<[ "data" :=
            JObj (<[ "admin" :=
                       JObj (<[ "email" := JStr "admin@example.com" ]>
                               {[ "id" := JStr "a1" ]}) ]>
                    {[ "token" := JStr "t0" ]}) ]>
         {[ "success" := JBool true ]}))).

(** A login reply that reports success and carries no token. *)
Definition success_without_token : fetch_result Z :=
  Response 200
    (Parsed (JObj (<[ "data" := JObj ∅ ]> {[ "success" := JBool true ]}))).

(** A reply whose [data] field is the number zero. *)
Definition zero_count : json Z :=
  JObj (<[ "data" := JNum 0 ]> {[ "success" := JBool true ]}).

Definition page_two_of_active : ProductsParams.t Z :=
  {| ProductsParams.page := Some 2;
     ProductsParams.limit := Some 10;
     ProductsParams.search := None;
     ProductsParams.category := None;
     ProductsParams.status := Some "active";
     ProductsParams.sortBy := None;
     ProductsParams.sortOrder := None |}.


(** A parameter object whose page and search are set and falsy. *)
Definition first_page_any : ProductsParams.t Z :=
  {| ProductsParams.page := Some 0;
     ProductsParams.limit := Some 10;
     ProductsParams.search := Some "";
     ProductsParams.category := None;
     ProductsParams.status := None;
     ProductsParams.sortBy := None;
     ProductsParams.sortOrder := Some asc |}.

(** The reply of a backend that does not know the token. *)
Definition unauthorized : fetch_result Z :=
  Response 401 (Parsed (JObj {[ "message" := JStr "Invalid token" ]})).

(** A validation failure. *)
Definition validation_failure : json Z :=
  JObj (<[ "errors" :=
             JArr [JObj (<[ "message" := JStr "Required" ]>
                           {[ "path" := JArr [JStr "name"] ]})] ]>
          {[ "error" := JStr "Validation failed" ]}).

(** The reply to an upload. *)
Definition uploaded : json Z :=
  JObj (<[ "data" := JObj {[ "url" := JStr "https://img.example/1.png" ]} ]>
          {[ "success" := JBool true ]}).

Definition png : File :=
  {| file_name := "tooth.png"; file_type := "image/png";
     file_size := 2048 |}.


(** ** Proof steps shared by the facts below *)

(** Unfolds one run of a client function down to the case analysis on the
    network's answer and on the parsed body. *)
Ltac run_client :=
  unfold apiRequest, upload, login, logout, isAuthenticated,
    getAdminToken, try_catch, bind, fetch, response_json, getItem,
    or_else, get_optional, get, ret, throw, setItem, removeItem,
    set_location_href;
  simpl.

Ltac split_cases := repeat (case_match; simpl in *; simplify_eq).

Ltac resolved :=
  eexists _, _; split; [reflexivity | simpl; eauto].

(** ** Every call returns an envelope *)

Section Envelopes.

Context {number : Type} {host : JsHost number}
  {environment : Environment number}.

Lemma truthy_is_Some (v : option (json number)) :
  truthy v = true -> is_Some v.
Proof. destruct v; [eauto | discriminate]. Qed.

Lemma apiRequest_resolves endpoint options w :
  exists w' r,
    apiRequest endpoint options w = (w', Returns r)
    /\ if success r then is_Some (data r) else is_Some (message r).
Proof.
  run_client. destruct (network _) as [t | status [body | t]]; simpl;
    [resolved | | resolved].
  destruct body; split_cases; resolved; eauto using truthy_is_Some.
Qed.

Lemma upload_resolves endpoint formData w :
  exists w' r,
    upload endpoint formData w = (w', Returns r)
    /\ if success r then True else is_Some (message r).
Proof.
  run_client. destruct (network _) as [t | status [body | t]]; simpl;
    [resolved | | resolved].
  destruct body; split_cases; resolved; eauto using truthy_is_Some.
Qed.

Lemma login_resolves email password w :
  exists w' r,
    login email password w = (w', Returns r)
    /\ if success r then True else is_Some (message r).
Proof.
  run_client. destruct (network _) as [t | status [body | t]]; simpl;
    [resolved | | resolved].
  destruct body; split_cases; resolved; eauto using truthy_is_Some.
Qed.

(** A property of every run of [apiRequest], of the upload body and of
    [login] is a property of every operation that sends a request. *)
Lemma run_cases (P : browser number * completion (ApiResponse number) -> Prop)
    (w : browser number) :
  (forall endpoint options, P (apiRequest endpoint options w)) ->
  (forall endpoint formData, P (upload endpoint formData w)) ->
  (forall email password, P (login email password w)) ->
  forall op, sends_a_request op = true -> P (run op w).
Proof.
  intros Hreq Hup Hlogin op Hop.
  destruct op; simpl in *; try discriminate;
    first [apply Hreq | apply Hup | apply Hlogin].
Qed.

Lemma run_cases_authenticated
    (P : browser number * completion (ApiResponse number) -> Prop)
    (w : browser number) :
  (forall endpoint options, P (apiRequest endpoint options w)) ->
  (forall endpoint formData, P (upload endpoint formData w)) ->
  forall op, authenticated op = true -> P (run op w).
Proof.
  intros Hreq Hup op Hop.
  destruct op; simpl in *; try discriminate;
    first [apply Hreq | apply Hup].
Qed.

(** C1, as amended.  Every call of every operation returns an envelope and
    never throws.  A failure envelope always carries a message.  A success
    envelope carries data when the operation goes through [apiRequest];
    [logout] returns a bare success, and [login] and the uploads pass on
    the body's [data] field, which may be missing. *)
Theorem every_call_resolves_to_an_envelope (op : operation) w :
  exists w' r,
    run op w = (w', Returns r)
    /\ match success r, through_apiRequest op with
       | true, true => is_Some (data r)
       | true, false => True
       | false, _ => is_Some (message r)
       end.
Proof.
  destruct op; simpl;
    unfold me, getProducts, getProduct, createProduct, updateProduct,
      updatePricing, deleteProduct, getCategories, uploadImage,
      uploadImages, deleteImage, getOrders, getStats, getOrder,
      updateStatus, getUserOrders;
    try match goal with
        | |- context [apiRequest ?e ?o ?w] =>
            destruct (apiRequest_resolves e o w) as (w' & r & -> & Hr);
            exists w', r; split; [reflexivity | destruct (success r); exact Hr]
        | |- context [upload ?e ?f ?w] =>
            destruct (upload_resolves e f w) as (w' & r & -> & Hr);
            exists w', r; split; [reflexivity | destruct (success r); exact Hr]
        | |- context [login ?e ?p ?w] =>
            destruct (login_resolves e p w) as (w' & r & -> & Hr);
            exists w', r; split; [reflexivity | destruct (success r); exact Hr]
        end.
  eexists _, _. split; [reflexivity | exact I].
Qed.

End Envelopes.

(** C1, as stated, fails at [logout]: its envelope is a success that
    carries no data, so it has neither of the two shapes. *)
Lemma logout_envelope_has_neither_shape :
  exists w' r,
    run (environment := answering (FetchRejects NonError)) Logout signed_in
      = (w', Returns r)
    /\ ~ (success_with_data r \/ failure_with_message r).
Proof.
  eexists _, _. split; [reflexivity |].
  unfold success_with_data, failure_with_message. simpl.
  intros [[_ [x Hx]] | [Hs _]]; discriminate.
Qed.


(** ** Transport failures and unparseable bodies *)

Section Rejections.

Context {number : Type} {host : JsHost number}
  {environment : Environment number}.

Lemma fetch_rejection_is_caught t w op :
  (forall r, network r = FetchRejects t) ->
  sends_a_request op = true ->
  caught_with t w (run op w).
Proof.
  intros Hnet. apply run_cases; intros; unfold caught_with;
    run_client; rewrite Hnet; split_cases; eauto.
Qed.

Lemma body_rejection_is_caught status t w op :
  (forall r, network r = Response status (BodyRejects t)) ->
  sends_a_request op = true ->
  caught_with t w (run op w).
Proof.
  intros Hnet. apply run_cases; intros; unfold caught_with;
    run_client; rewrite Hnet; split_cases; eauto.
Qed.

(** C3, as amended.  When the transport fails, every operation that sends
    a request returns a failure envelope whose [error] field is the fixed
    text "Network error" and whose [message] is the message of the thrown
    [Error]; the fixed text stands in for the message only when what was
    thrown is not an [Error].  Nothing is written to storage. *)
Theorem transport_failure_envelope t w op :
  (forall r, network r = FetchRejects t) ->
  sends_a_request op = true ->
  exists w' r,
    run op w = (w', Returns r)
    /\ success r = false
    /\ message r = Some (JStr match t with
                              | JsError m => m
                              | NonError => "Network error"
                              end)
    /\ error r = Some (JStr "Network error")
    /\ localStorage w' = localStorage w.
Proof.
  intros Hnet Hop.
  destruct (fetch_rejection_is_caught t w op Hnet Hop) as (w' & -> & Hs & _).
  exists w', (caught t). by destruct t.
Qed.

(** C4, as amended.  When the body of a response does not parse, whatever
    the status, [apiRequest] does not let the parse error through: it
    returns the envelope of its [catch] clause, with the parse error's
    message as [message], "Network error" as [error] and no [errors]. *)
Theorem unparseable_body_envelope status t endpoint options w :
  (forall r, network r = Response status (BodyRejects t)) ->
  exists w' r,
    apiRequest endpoint options w = (w', Returns r)
    /\ success r = false
    /\ message r = Some (JStr match t with
                              | JsError m => m
                              | NonError => "Network error"
                              end)
    /\ error r = Some (JStr "Network error")
    /\ errors r = None.
Proof.
  intros Hnet. run_client. rewrite Hnet. destruct t; split_cases;
    eexists _, _; (split; [reflexivity|]); done.
Qed.

(** C5, as amended.  For a 2xx response whose body parses to a value other
    than [null], [apiRequest] returns a success envelope whose payload is
    the body's [data] field when that field is present and truthy, and the
    whole body otherwise. *)
Theorem success_payload status body endpoint options w :
  (forall r, network r = Response status (Parsed body)) ->
  response_ok status = true ->
  body <> JNull ->
  exists w' r,
    apiRequest endpoint options w = (w', Returns r)
    /\ success r = true
    /\ data r = Some match property_of body P_data with
                     | Some d => if truthy (Some d) then d else body
                     | None => body
                     end.
Proof.
  intros Hnet Hok Hbody. run_client. rewrite Hnet. simpl. rewrite Hok. simpl.
  destruct body; try done; split_cases; eexists _, _; eauto.
Qed.

End Rejections.

(** C3, as stated, fails when [fetch] rejects with an [Error]: the
    message of the envelope is the error's, not "Network error". *)
Lemma transport_message_is_not_fixed :
  exists w' r,
    run (environment := answering (FetchRejects (JsError "Failed to fetch")))
      (GetOrders None) signed_in = (w', Returns r)
    /\ message r = Some (JStr "Failed to fetch")
    /\ message r <> Some (JStr "Network error").
Proof. eexists _, _. repeat split. discriminate. Qed.

Lemma transport_failure_envelope_witness :
  exists w' r,
    run (environment := answering (FetchRejects (JsError "Failed to fetch")))
      (GetOrders None) signed_in = (w', Returns r)
    /\ success r = false
    /\ message r = Some (JStr "Failed to fetch")
    /\ error r = Some (JStr "Network error")
    /\ localStorage w' = localStorage signed_in.
Proof.
  apply (transport_failure_envelope
           (environment := answering (FetchRejects (JsError "Failed to fetch")))
           (JsError "Failed to fetch") signed_in (GetOrders None));
    [intros r; reflexivity | reflexivity].
Defined.

(** C4, as stated, fails on a 500 whose body is an HTML page: the
    envelope is not the one an empty object gives. *)
Lemma unparseable_body_is_not_an_empty_object :
  exists w1 r1 w2 r2,
    getStats (environment := answering (Response 500 (BodyRejects html_error_page)))
      signed_in = (w1, Returns r1)
    /\ getStats (environment := answering (Response 500 (Parsed (JObj ∅))))
         signed_in = (w2, Returns r2)
    /\ message r2 = Some (JStr "Request failed")
    /\ error r2 = None
    /\ message r1 <> message r2
    /\ error r1 <> error r2.
Proof. eexists _, _, _, _. repeat split; discriminate. Qed.

Lemma unparseable_body_envelope_witness :
  exists w' r,
    apiRequest (environment := answering (Response 500 (BodyRejects html_error_page)))
      "/api/admin/orders/stats" no_options signed_in = (w', Returns r)
    /\ success r = false
    /\ message r = Some (JStr "Unexpected token < in JSON at position 0")
    /\ error r = Some (JStr "Network error")
    /\ errors r = None.
Proof.
  apply (unparseable_body_envelope
           (environment := answering (Response 500 (BodyRejects html_error_page)))
           500 html_error_page "/api/admin/orders/stats" no_options signed_in).
  intros r; reflexivity.
Defined.

(** C5, as stated, fails on a body whose [data] field is present and
    falsy: the payload is the whole body. *)
Lemma falsy_data_field_is_not_the_payload :
  exists w' r,
    getStats (environment := answering (Response 200 (Parsed zero_count)))
      signed_in = (w', Returns r)
    /\ property_of zero_count P_data = Some (JNum 0)
    /\ data r = Some zero_count
    /\ data r <> Some (JNum 0).
Proof. eexists _, _. repeat split. discriminate. Qed.

Lemma success_payload_witness :
  exists w' r,
    apiRequest (environment := answering (Response 200 (Parsed zero_count)))
      "/api/admin/orders/stats" no_options signed_in = (w', Returns r)
    /\ success r = true
    /\ data r = Some zero_count.
Proof.
  exact (success_payload
           (environment := answering (Response 200 (Parsed zero_count)))
           200 zero_count "/api/admin/orders/stats" no_options signed_in
           (fun r => eq_refl) eq_refl ltac:(discriminate)).
Defined.


(** ** Query strings *)

Lemma append_cons c (a b : string) : String c a ++ b = String c (a ++ b).
Proof. reflexivity. Qed.

Lemma append_empty_r (a : string) : a ++ "" = a.
Proof.
  induction a as [|x a IH]; [reflexivity | by rewrite append_cons, IH].
Qed.

Lemma string_app_assoc (a b c : string) : (a ++ b) ++ c = a ++ (b ++ c).
Proof.
  induction a as [|x a IH]; [reflexivity | by rewrite !append_cons, IH].
Qed.

Lemma chars_app (a b : string) : chars (a ++ b) = (chars a ++ chars b)%list.
Proof. induction a as [|c a IH]; simpl; [reflexivity | by rewrite IH]. Qed.

Lemma prefix_chars (sub s : string) :
  String.prefix sub s = true -> exists post, chars s = (chars sub ++ post)%list.
Proof.
  revert s. induction sub as [|c sub IH]; intros s Hp.
  - exists (chars s). reflexivity.
  - destruct s as [|d s]; simpl in Hp; [discriminate|].
    destruct (ascii_dec c d) as [->|]; [|discriminate].
    destruct (IH s Hp) as [post Hpost]. exists post. simpl. by rewrite Hpost.
Qed.

Lemma prefix_app (sub post : string) : String.prefix sub (sub ++ post) = true.
Proof.
  induction sub as [|c sub IH]; [by destruct post|].
  rewrite append_cons. simpl.
  destruct (ascii_dec c c); [exact IH | done].
Qed.

(** [includes] finds [sub] only where [sub] is. *)
Lemma includes_chars (s sub : string) :
  includes s sub = true ->
  exists pre post, chars s = (pre ++ chars sub ++ post)%list.
Proof.
  induction s as [|c s IH]; simpl; intros H.
  - destruct sub; [|discriminate]. exists [], []. reflexivity.
  - apply orb_true_iff in H as [H|H].
    + destruct (prefix_chars sub (String c s) H) as [post Hp].
      exists [], post. exact Hp.
    + destruct (IH H) as (pre & post & Hp). exists (c :: pre), post.
      simpl. by rewrite Hp.
Qed.

(** [includes] finds [sub] wherever it is. *)
Lemma includes_middle (pre sub post : string) :
  includes (pre ++ sub ++ post) sub = true.
Proof.
  induction pre as [|c pre IH].
  - change ("" ++ sub ++ post) with (sub ++ post).
    pose proof (prefix_app sub post) as Hp.
    destruct (sub ++ post); simpl in *; by rewrite Hp.
  - rewrite append_cons. simpl. rewrite IH. apply orb_true_r.
Qed.

Lemma first_separator (l : list ascii) :
  plain l
  \/ exists a c b, l = (a ++ c :: b)%list /\ plain a /\ separator c = true.
Proof.
  induction l as [|x l IH]; [left; constructor|].
  destruct (separator x) eqn:Hx.
  - right. exists [], x, l. repeat split; [constructor | exact Hx].
  - destruct IH as [Hl | (a & c & b & -> & Ha & Hc)].
    + left. by constructor.
    + right. exists (x :: a), c, b. repeat split; [by constructor | exact Hc].
Qed.

Lemma first_separator_unique (a a' b b' : list ascii) c c' :
  (a ++ c :: b = a' ++ c' :: b')%list ->
  plain a -> plain a' -> separator c = true -> separator c' = true ->
  a = a' /\ c = c' /\ b = b'.
Proof.
  revert a'. induction a as [|x a IH]; intros [|x' a'] Heq Ha Ha' Hc Hc';
    simpl in Heq; simplify_eq.
  - done.
  - apply Forall_cons in Ha' as [Hx _]. congruence.
  - apply Forall_cons in Ha as [Hx _]. congruence.
  - apply Forall_cons in Ha as [_ Ha]. apply Forall_cons in Ha' as [_ Ha'].
    destruct (IH a' H0 Ha Ha' Hc Hc') as (-> & -> & ->). done.
Qed.

Lemma plain_has_no_separator (l a b : list ascii) c :
  plain l -> l = (a ++ c :: b)%list -> separator c = true -> False.
Proof.
  intros Hl -> Hc. apply Forall_app in Hl as [_ Hl].
  apply Forall_cons in Hl as [Hx _]. congruence.
Qed.

Lemma serialize_byte_plain c :
  plain (chars (URLSearchParams.serialize_byte c)).
Proof.
  destruct c as [[] [] [] [] [] [] [] []]; vm_compute; repeat constructor.
Qed.

Lemma serialize_bytes_plain s :
  plain (chars (URLSearchParams.serialize_bytes s)).
Proof.
  induction s as [|c s IH]; simpl; [constructor|].
  rewrite chars_app. apply Forall_app.
  split; [apply serialize_byte_plain | exact IH].
Qed.

Lemma toString_cons nv rest :
  chars (URLSearchParams.toString (nv :: rest)) =
  (chars (URLSearchParams.serialize_bytes nv.1) ++ "="%char ::
   chars (URLSearchParams.serialize_bytes nv.2) ++
   match rest with
   | [] => []
   | _ => "&"%char :: chars (URLSearchParams.toString rest)
   end)%list.
Proof.
  destruct rest; simpl; unfold URLSearchParams.serialize_pair;
    rewrite !chars_app; simpl; rewrite ?chars_app; simpl.
  - by rewrite app_nil_r.
  - rewrite <- !app_assoc. simpl. rewrite <- ?app_assoc. reflexivity.
Qed.

(** A run of plain characters followed by [=] inside a serialised query
    is the end of one of the query's names. *)
Lemma name_before_equals (sp : URLSearchParams.t) (x pre post : list ascii) :
  plain x ->
  chars (URLSearchParams.toString sp) = (pre ++ x ++ "="%char :: post)%list ->
  exists nv,
    nv ∈ sp /\ x `suffix_of` chars (URLSearchParams.serialize_bytes nv.1).
Proof.
  intros Hx. revert pre. induction sp as [|nv rest IH]; intros pre Heq.
  - simpl in Heq. destruct pre, x; discriminate.
  - rewrite toString_cons in Heq.
    pose proof (serialize_bytes_plain nv.1) as Hk.
    pose proof (serialize_bytes_plain nv.2) as Hv.
    destruct (first_separator pre) as [Hpre | (p1 & c & p2 & -> & Hp1 & Hc)].
    + rewrite app_assoc in Heq.
      destruct (first_separator_unique _ _ _ _ _ _ Heq) as (Hkx & _ & _);
        [done | by apply Forall_app | done | done |].
      exists nv. split; [constructor|]. exists pre. exact Hkx.
    + rewrite <- app_assoc in Heq. simpl in Heq.
      destruct (first_separator_unique _ _ _ _ _ _ Heq) as (_ & <- & Hrest);
        [done | done | done | done |].
      destruct rest as [|nv' rest'].
      * rewrite app_nil_r in Hrest. exfalso.
        rewrite app_assoc in Hrest.
        exact (plain_has_no_separator _ _ _ _ Hv Hrest eq_refl).
      * destruct (first_separator p2)
          as [Hp2 | (q1 & d & q2 & -> & Hq1 & Hd)].
        -- rewrite app_assoc in Hrest.
           destruct (first_separator_unique _ _ _ _ _ _ Hrest)
             as (_ & Habs & _);
             [done | by apply Forall_app | done | done |]. discriminate.
        -- rewrite <- app_assoc in Hrest. simpl in Hrest.
           destruct (first_separator_unique _ _ _ _ _ _ Hrest)
             as (_ & _ & Htail);
             [done | done | done | done |].
           destruct (IH q2 Htail) as (nv0 & Hin & Hsuf).
           exists nv0. split; [by constructor | exact Hsuf].
Qed.

(** A pair of the query is in its serialisation. *)
Lemma toString_holds_pair (sp : URLSearchParams.t) nv :
  nv ∈ sp ->
  exists pre post,
    URLSearchParams.toString sp
    = pre ++ URLSearchParams.serialize_pair nv ++ post.
Proof.
  induction sp as [|x rest IH]; intros Hin; [by apply elem_of_nil in Hin|].
  apply elem_of_cons in Hin as [-> | Hin].
  - exists "". destruct rest as [|y rest'].
    + exists "". simpl. by rewrite append_empty_r.
    + exists ("&" ++ URLSearchParams.toString (y :: rest')). reflexivity.
  - destruct (IH Hin) as (pre & post & Heq).
    destruct rest as [|y rest']; [by apply elem_of_nil in Hin|].
    exists (URLSearchParams.serialize_pair x ++ "&" ++ pre), post.
    change (URLSearchParams.toString (x :: y :: rest'))
      with (URLSearchParams.serialize_pair x ++ "&"
            ++ URLSearchParams.toString (y :: rest')).
    rewrite Heq. by rewrite !string_app_assoc.
Qed.

Lemma list_param_name_plain q : plain (chars (list_param_name q)).
Proof. destruct q; vm_compute; repeat constructor. Qed.

Lemma list_param_name_serialized q :
  URLSearchParams.serialize_bytes (list_param_name q) = list_param_name q.
Proof. by destruct q. Qed.

(** No name of a parameter ends in the name of another one. *)
Lemma list_param_names_suffix_free q q' :
  chars (list_param_name q) `suffix_of` chars (list_param_name q') -> q = q'.
Proof.
  destruct q, q'; try reflexivity; intros Hs; exfalso;
    match type of Hs with
    | ?P =>
        assert (bool_decide P = false) as Hd by (vm_compute; reflexivity);
        exact (bool_decide_eq_false_1 P Hd Hs)
    end.
Qed.

Lemma named_by_new sets : named_by sets URLSearchParams.new.
Proof. intros nv Hin. by apply elem_of_nil in Hin. Qed.

Lemma named_by_append sets q value sp :
  sets q = true -> named_by sets sp ->
  named_by sets (URLSearchParams.append (list_param_name q) value sp).
Proof.
  intros Hq Hsp nv Hin. unfold URLSearchParams.append in Hin.
  apply elem_of_app in Hin as [Hin | Hin]; [by apply Hsp|].
  apply list_elem_of_singleton in Hin as ->. by exists q.
Qed.

Lemma named_by_weaken (sends sets : list_param -> bool) sp :
  (forall q, sends q = true -> sets q = true) ->
  named_by sends sp -> named_by sets sp.
Proof.
  intros Hw Hsp nv Hin. destruct (Hsp nv Hin) as (q & Hname & Hq).
  exists q. split; [exact Hname | by apply Hw].
Qed.

Lemma unset_name_not_in_query sets sp q :
  named_by sets sp -> sets q = false ->
  includes (URLSearchParams.toString sp) (list_param_name q ++ "=") = false.
Proof.
  intros Hsp Hq. apply not_true_is_false. intros Hinc.
  apply includes_chars in Hinc as (pre & post & Heq).
  rewrite chars_app in Heq. simpl in Heq. rewrite <- app_assoc in Heq.
  simpl in Heq.
  apply name_before_equals in Heq as (nv & Hin & Hsuf);
    [|apply list_param_name_plain].
  destruct (Hsp nv Hin) as (q' & Hname & Hset).
  rewrite Hname, list_param_name_serialized in Hsuf.
  apply list_param_names_suffix_free in Hsuf as ->. congruence.
Qed.

Lemma nothing_set_empty_query sets sp :
  named_by sets sp -> (forall q, sets q = false) -> sp = [].
Proof.
  intros Hsp Hnone. destruct sp as [|nv rest]; [done|].
  destruct (Hsp nv) as (q & _ & Hq); [constructor|].
  rewrite Hnone in Hq. discriminate.
Qed.

Lemma pair_in_query sp q value :
  (list_param_name q, value) ∈ sp ->
  includes (URLSearchParams.toString sp)
    (list_param_name q ++ "=" ++ URLSearchParams.serialize_bytes value)
  = true.
Proof.
  intros Hin. destruct (toString_holds_pair sp _ Hin) as (pre & post & ->).
  unfold URLSearchParams.serialize_pair. simpl.
  rewrite list_param_name_serialized. apply includes_middle.
Qed.

Section Queries.

Context {number : Type} {host : JsHost number}.

Lemma named_by_append_number sets q (v : option number) sp :
  (number_sent v = true -> sets q = true) -> named_by sets sp ->
  named_by sets (append_number (list_param_name q) v sp).
Proof.
  intros Hq Hsp. unfold append_number. destruct v as [n|]; [|done].
  simpl in Hq. destruct (number_truthy n); [|done].
  by apply named_by_append; [apply Hq|].
Qed.

Lemma named_by_append_string sets q (v : option string) sp :
  (string_truthy v = true -> sets q = true) -> named_by sets sp ->
  named_by sets (append_string (list_param_name q) v sp).
Proof.
  intros Hq Hsp. unfold append_string. destruct v as [s|]; [|done].
  simpl in Hq. destruct (String.eqb s ""); [done|].
  by apply named_by_append; [apply Hq|].
Qed.

Lemma sortOrder_sent (v : option SortOrder) :
  string_truthy (SortOrder_name <$> v) = true -> is_set v = true.
Proof. by destruct v. Qed.

Lemma products_named params :
  named_by (products_sends params) (products_searchParams params).
Proof.
  unfold products_searchParams.
  apply (named_by_append_string _ Q_sortOrder); [apply sortOrder_sent|].
  apply (named_by_append_string _ Q_sortBy); [done|].
  apply (named_by_append_string _ Q_status); [done|].
  apply (named_by_append_string _ Q_category); [done|].
  apply (named_by_append_string _ Q_search); [done|].
  apply (named_by_append_number _ Q_limit); [done|].
  apply (named_by_append_number _ Q_page); [done|].
  apply named_by_new.
Qed.

Lemma orders_named params :
  named_by (orders_sends params) (orders_searchParams params).
Proof.
  unfold orders_searchParams.
  apply (named_by_append_string _ Q_endDate); [done|].
  apply (named_by_append_string _ Q_startDate); [done|].
  apply (named_by_append_string _ Q_sortOrder); [apply sortOrder_sent|].
  apply (named_by_append_string _ Q_sortBy); [done|].
  apply (named_by_append_string _ Q_search); [done|].
  apply (named_by_append_string _ Q_status); [done|].
  apply (named_by_append_number _ Q_limit); [done|].
  apply (named_by_append_number _ Q_page); [done|].
  apply named_by_new.
Qed.

Lemma number_sent_is_set (v : option number) :
  number_sent v = true -> is_set v = true.
Proof. by destruct v. Qed.

Lemma string_truthy_is_set (v : option string) :
  string_truthy v = true -> is_set v = true.
Proof. by destruct v. Qed.

Lemma products_sends_sets params q :
  products_sends params q = true -> products_sets params q = true.
Proof.
  destruct q; simpl;
    auto using number_sent_is_set, string_truthy_is_set.
Qed.

Lemma orders_sends_sets params q :
  orders_sends params q = true -> orders_sets params q = true.
Proof.
  destruct q; simpl;
    auto using number_sent_is_set, string_truthy_is_set.
Qed.

(** C8.  A field that a parameter object of [getProducts] or [getOrders]
    leaves unset is absent from the query string, which never contains the
    field's name followed by [=]; and a parameter object that sets no
    field gives the bare path, without a query string. *)
Theorem unset_fields_are_absent_from_the_query :
  (forall (params : option (ProductsParams.t number)) q,
     products_sets params q = false ->
     includes (URLSearchParams.toString (products_searchParams params))
       (list_param_name q ++ "=") = false)
  /\ (forall (params : option (OrdersParams.t number)) q,
        orders_sets params q = false ->
        includes (URLSearchParams.toString (orders_searchParams params))
          (list_param_name q ++ "=") = false)
  /\ (forall params : option (ProductsParams.t number),
        (forall q, products_sets params q = false) ->
        getProducts_endpoint params = "/api/admin/products")
  /\ (forall params : option (OrdersParams.t number),
        (forall q, orders_sets params q = false) ->
        getOrders_endpoint params = "/api/admin/orders").
Proof.
  pose proof (fun params =>
    named_by_weaken _ _ _ (products_sends_sets params) (products_named params))
    as Hp.
  pose proof (fun params =>
    named_by_weaken _ _ _ (orders_sends_sets params) (orders_named params))
    as Ho.
  repeat split.
  - intros params q. apply unset_name_not_in_query, Hp.
  - intros params q. apply unset_name_not_in_query, Ho.
  - intros params Hnone. unfold getProducts_endpoint.
    by rewrite (nothing_set_empty_query _ _ (Hp params) Hnone).
  - intros params Hnone. unfold getOrders_endpoint.
    by rewrite (nothing_set_empty_query _ _ (Ho params) Hnone).
Qed.

(** A field whose value is falsy (the number zero, the empty string) is
    left out of the query string like an unset one. *)
Theorem falsy_fields_are_absent_from_the_query :
  (forall (params : option (ProductsParams.t number)) q,
     products_sends params q = false ->
     includes (URLSearchParams.toString (products_searchParams params))
       (list_param_name q ++ "=") = false)
  /\ (forall (params : option (OrdersParams.t number)) q,
        orders_sends params q = false ->
        includes (URLSearchParams.toString (orders_searchParams params))
          (list_param_name q ++ "=") = false).
Proof.
  split; intros params q.
  - apply unset_name_not_in_query, products_named.
  - apply unset_name_not_in_query, orders_named.
Qed.

Lemma append_number_keeps name (v : option number) sp nv :
  nv ∈ sp -> nv ∈ append_number name v sp.
Proof.
  intros Hin. unfold append_number, URLSearchParams.append.
  destruct v as [n|]; [|done]. destruct (number_truthy n); [|done].
  apply elem_of_app. by left.
Qed.

Lemma append_string_keeps name (v : option string) sp nv :
  nv ∈ sp -> nv ∈ append_string name v sp.
Proof.
  intros Hin. unfold append_string, URLSearchParams.append.
  destruct v as [s|]; [|done]. destruct (String.eqb s ""); [done|].
  apply elem_of_app. by left.
Qed.

Lemma append_number_adds name (v : option number) sp :
  number_sent v = true ->
  (name, from_option number_toString "" v) ∈ append_number name v sp.
Proof.
  unfold number_sent, append_number, URLSearchParams.append.
  destruct v as [n|]; [|done]. intros ->.
  apply elem_of_app. right. by apply list_elem_of_singleton.
Qed.

Lemma append_string_adds name (v : option string) sp :
  string_truthy v = true ->
  (name, default "" v) ∈ append_string name v sp.
Proof.
  unfold string_truthy, append_string, URLSearchParams.append.
  destruct v as [s|]; [|done]. destruct (String.eqb s ""); [done|].
  intros _. apply elem_of_app. right. by apply list_elem_of_singleton.
Qed.

Lemma append_sortOrder_adds name (v : option SortOrder) sp :
  is_set v = true ->
  (name, from_option SortOrder_name "" v)
    ∈ append_string name (SortOrder_name <$> v) sp.
Proof.
  destruct v as [[]|]; [| |done]; intros _;
    apply elem_of_app; right; by apply list_elem_of_singleton.
Qed.

Ltac find_pair :=
  repeat first
    [ by apply append_number_adds
    | by apply append_string_adds
    | by apply append_sortOrder_adds
    | apply append_number_keeps
    | apply append_string_keeps ].

Lemma products_query_holds params q :
  products_sends params q = true ->
  (list_param_name q, products_value params q)
    ∈ products_searchParams params.
Proof.
  intros Hq. unfold products_searchParams.
  destruct q; simpl in Hq; try discriminate; simpl; find_pair.
Qed.

Lemma orders_query_holds params q :
  orders_sends params q = true ->
  (list_param_name q, orders_value params q) ∈ orders_searchParams params.
Proof.
  intros Hq. unfold orders_searchParams.
  destruct q; simpl in Hq; try discriminate; simpl; find_pair.
Qed.

(** A field whose value is truthy is in the query string, as its name, an
    [=] and its form-encoded value. *)
Theorem truthy_fields_are_in_the_query :
  (forall (params : option (ProductsParams.t number)) q,
     products_sends params q = true ->
     includes (URLSearchParams.toString (products_searchParams params))
       (list_param_name q ++ "="
        ++ URLSearchParams.serialize_bytes (products_value params q)) = true)
  /\ (forall (params : option (OrdersParams.t number)) q,
        orders_sends params q = true ->
        includes (URLSearchParams.toString (orders_searchParams params))
          (list_param_name q ++ "="
           ++ URLSearchParams.serialize_bytes (orders_value params q))
        = true).
Proof.
  split; intros params q Hq.
  - by apply pair_in_query, products_query_holds.
  - by apply pair_in_query, orders_query_holds.
Qed.

(** The list pages never send the filter value "all" or an empty search
    box, and always ask for the newest first. *)
Theorem list_pages_leave_out_the_all_filter
    (page limit : number) (search category status : string) :
  let orders_query s f :=
    URLSearchParams.toString
      (orders_searchParams (Some (fetchOrders_params page limit s f))) in
  let products_query s c f :=
    URLSearchParams.toString
      (products_searchParams
         (Some (fetchProducts_params page limit s c f))) in
  includes (orders_query search "all") "status=" = false
  /\ includes (orders_query "" status) "search=" = false
  /\ includes (products_query search "all" status) "category=" = false
  /\ includes (products_query search category "all") "status=" = false
  /\ includes (products_query "" category status) "search=" = false
  /\ includes (orders_query search status) "sortBy=createdAt" = true
  /\ includes (orders_query search status) "sortOrder=desc" = true
  /\ includes (products_query search category status) "sortBy=createdAt"
     = true
  /\ includes (products_query search category status) "sortOrder=desc"
     = true.
Proof.
  intros orders_query products_query.
  subst orders_query products_query. cbv beta.
  repeat split.
  - by apply (unset_name_not_in_query
                (orders_sends (Some (fetchOrders_params page limit search "all")))
                _ Q_status (orders_named _)).
  - by apply (unset_name_not_in_query
                (orders_sends (Some (fetchOrders_params page limit "" status)))
                _ Q_search (orders_named _)).
  - by apply (unset_name_not_in_query
                (products_sends
                   (Some (fetchProducts_params page limit search "all" status)))
                _ Q_category (products_named _)).
  - by apply (unset_name_not_in_query
                (products_sends
                   (Some (fetchProducts_params page limit search category "all")))
                _ Q_status (products_named _)).
  - by apply (unset_name_not_in_query
                (products_sends
                   (Some (fetchProducts_params page limit "" category status)))
                _ Q_search (products_named _)).
  - exact (pair_in_query _ Q_sortBy "createdAt"
             (orders_query_holds
                (Some (fetchOrders_params page limit search status))
                Q_sortBy eq_refl)).
  - exact (pair_in_query _ Q_sortOrder "desc"
             (orders_query_holds
                (Some (fetchOrders_params page limit search status))
                Q_sortOrder eq_refl)).
  - exact (pair_in_query _ Q_sortBy "createdAt"
             (products_query_holds
                (Some (fetchProducts_params page limit search category status))
                Q_sortBy eq_refl)).
  - exact (pair_in_query _ Q_sortOrder "desc"
             (products_query_holds
                (Some (fetchProducts_params page limit search category status))
                Q_sortOrder eq_refl)).
Qed.

End Queries.

Lemma unset_fields_are_absent_from_the_query_witness :
  includes
    (URLSearchParams.toString (products_searchParams (Some page_two_of_active)))
    "search=" = false.
Proof.
  exact (proj1 unset_fields_are_absent_from_the_query
           (Some page_two_of_active) Q_search eq_refl).
Defined.

Lemma falsy_fields_are_absent_from_the_query_witness :
  includes
    (URLSearchParams.toString (products_searchParams (Some first_page_any)))
    "page=" = false.
Proof.
  exact (proj1 falsy_fields_are_absent_from_the_query
           (Some first_page_any) Q_page eq_refl).
Defined.

Lemma truthy_fields_are_in_the_query_witness :
  includes
    (URLSearchParams.toString (products_searchParams (Some page_two_of_active)))
    "status=active" = true.
Proof.
  exact (proj1 truthy_fields_are_in_the_query
           (Some page_two_of_active) Q_status eq_refl).
Defined.

(** ** Sessions *)

Section Sessions.

Context {number : Type} {host : JsHost number}
  {environment : Environment number}.

Lemma both_cleared_after_removal (m : gmap string string) href (l : list (request number)) :
  both_cleared {| localStorage := delete "adminEmail" (delete "adminToken" m);
                  location_href := href; sent := l |}.
Proof.
  split; simpl.
  - rewrite lookup_delete_ne by done. apply lookup_delete_eq.
  - apply lookup_delete_eq.
Qed.

Lemma string_truthy_iff (o : option string) :
  string_truthy o = true <-> exists t, o = Some t /\ t <> "".
Proof.
  destruct o as [t|]; simpl.
  - destruct (String.eqb_spec t ""); simpl; split.
    + discriminate.
    + intros (t' & [= <-] & Hne). done.
    + intros _. by exists t.
    + done.
  - split; [discriminate | intros (t & [=] & _)].
Qed.

Lemma logout_when_cleared (w : browser number) :
  both_cleared w ->
  logout w = (w, Returns {| success := true; data := None; message := None;
                            error := None; errors := None |}).
Proof.
  intros [Htoken Hemail]. run_client. destruct w as [m href l]; simpl in *.
  rewrite (delete_id m "adminToken") by done.
  rewrite (delete_id m "adminEmail") by done. reflexivity.
Qed.

Lemma login_success_stores_token email password w w' r tok :
  login email password w = (w', Returns r) ->
  success r = true ->
  data r ≫= (fun d => property_of d P_token) = Some (JStr tok) ->
  tok <> "" ->
  localStorage w' !! "adminToken" = Some tok.
Proof.
  run_client. intros Hrun Hs Htok Hne.
  destruct (network _) as [t | status [body | t]]; simpl in *;
    [by simplify_eq | | by simplify_eq].
  destruct (negb (response_ok status)); simpl in *.
  { split_cases. }
  destruct body; simpl in *; simplify_eq.
  split_cases; simpl; rewrite ?lookup_insert_ne by done;
    rewrite ?Htok in *; simpl; try apply lookup_insert_eq.
  all: try done.
  all: simpl in *; destruct (String.eqb_spec tok ""); done.
Qed.

(** C9, as amended.  [isAuthenticated] leaves the browser state alone,
    sends nothing, and returns [true] exactly when storage holds a token
    that is not the empty string.  [logout] always returns a success
    envelope, clears both entries, sends nothing, and leaves
    [isAuthenticated] false; on a state where both entries are already
    clear it changes nothing.  After a [login] that returned a success
    envelope whose data carries a non-empty string token,
    [isAuthenticated] is true. *)
Theorem isAuthenticated_login_logout :
  (forall w : browser number,
     exists b, isAuthenticated w = (w, Returns b)
       /\ (b = true <->
           exists t, localStorage w !! "adminToken" = Some t /\ t <> ""))
  /\ (forall w : browser number,
        exists w',
          logout w = (w', Returns {| success := true; data := None;
                                     message := None; error := None;
                                     errors := None |})
          /\ both_cleared w'
          /\ sent w' = sent w
          /\ isAuthenticated w' = (w', Returns false))
  /\ (forall w : browser number,
        both_cleared w ->
        logout w = (w, Returns {| success := true; data := None;
                                  message := None; error := None;
                                  errors := None |}))
  /\ (forall email password w w' r tok,
        login email password w = (w', Returns r) ->
        success r = true ->
        data r ≫= (fun d => property_of d P_token) = Some (JStr tok) ->
        tok <> "" ->
        isAuthenticated w' = (w', Returns true)).
Proof.
  split; [|split; [|split]].
  - intros w. exists (string_truthy (localStorage w !! "adminToken")).
    split; [reflexivity | apply string_truthy_iff].
  - intros w. eexists. split; [reflexivity|].
    split; [apply both_cleared_after_removal|]. split; [reflexivity|].
    run_client. rewrite lookup_delete_ne by done.
    by rewrite lookup_delete_eq.
  - apply logout_when_cleared.
  - intros email password w w' r tok Hrun Hs Htok Hne. run_client.
    rewrite (login_success_stores_token _ _ _ _ _ _ Hrun Hs Htok Hne).
    simpl. by destruct (String.eqb_spec tok "").
Qed.


Lemma session_ended (m : gmap string string) (l : list (request number)) :
  let w' := {| localStorage := delete "adminEmail" (delete "adminToken" m);
               location_href := "/login"; sent := l |} in
  both_cleared w'
  /\ location_href w' = "/login"
  /\ isAuthenticated w' = (w', Returns false).
Proof.
  intros w'. split; [apply both_cleared_after_removal|].
  split; [reflexivity|]. run_client.
  rewrite lookup_delete_ne by done. by rewrite lookup_delete_eq.
Qed.

(** A 401 whose body parses ends the session, whichever authenticated
    operation received it: both entries are cleared, the location is the
    login page, the caller gets a failure envelope, and [isAuthenticated]
    is false from then on. *)
Theorem unauthorized_ends_the_session body w op :
  (forall r, network r = Response 401 (Parsed body)) ->
  authenticated op = true ->
  exists w' r,
    run op w = (w', Returns r)
    /\ success r = false
    /\ both_cleared w'
    /\ location_href w' = "/login"
    /\ isAuthenticated w' = (w', Returns false).
Proof.
  intros Hnet Hop. pattern (run op w). revert op Hop.
  apply run_cases_authenticated; intros;
    run_client; rewrite Hnet; simpl;
    destruct body; split_cases; eexists _, _;
    (split; [reflexivity|]); (split; [reflexivity|]);
    apply session_ended.
Qed.

(** An authenticated operation touches neither storage nor the location
    unless the network answers 401 with a body that parses. *)
Theorem session_kept_unless_unauthorized w op :
  (forall r body, network r <> Response 401 (Parsed body)) ->
  authenticated op = true ->
  localStorage (run op w).1 = localStorage w
  /\ location_href (run op w).1 = location_href w.
Proof.
  intros Hnet Hop. pattern (run op w). revert op Hop.
  apply run_cases_authenticated; intros; run_client.
  all: destruct (network _) as [t | status [body | t]] eqn:Hr; simpl;
    [done | | done].
  all: destruct (Z.eqb_spec status 401) as [-> | Hne];
    [by apply Hnet in Hr |].
  all: destruct body; split_cases; done.
Qed.

(** A login that is refused (no response, an unparseable body, a status
    outside 2xx, or a falsy [success]) returns a failure envelope and
    leaves storage and location alone; a 401 is no exception. *)
Theorem login_refused_stores_nothing o email password w :
  (forall r, network r = o) ->
  login_refused o = true ->
  exists w' r,
    login email password w = (w', Returns r)
    /\ success r = false
    /\ localStorage w' = localStorage w
    /\ location_href w' = location_href w.
Proof.
  intros Hnet Ho. run_client. rewrite Hnet.
  destruct o as [t | status [body | t]]; simpl in *;
    [by eexists _, _ | | by eexists _, _].
  destruct (response_ok status); simpl in *.
  - destruct body; simpl in *; split_cases; by eexists _, _.
  - destruct body; simpl in *; split_cases; by eexists _, _.
Qed.

(** A login whose reply is accepted and carries a truthy token and an
    [admin] stores the token and the admin's email, each through
    [ToString], and returns a success envelope with the reply's [data]. *)
Theorem login_persists_token_and_email status body d tok admin
    email password w :
  (forall r, network r = Response status (Parsed body)) ->
  response_ok status = true ->
  truthy (property_of body P_success) = true ->
  property_of body P_data = Some d ->
  property_of d P_token = Some tok ->
  truthy (Some tok) = true ->
  property_of d P_admin = Some admin ->
  admin <> JNull ->
  exists w',
    login email password w
      = (w', Returns {| success := true; data := Some d;
                        message := property_of body P_message;
                        error := None; errors := None |})
    /\ localStorage w'
       = <[ "adminEmail" := ToString (property_of admin P_email) ]>
           (<[ "adminToken" := ToString (Some tok) ]> (localStorage w))
    /\ location_href w' = location_href w.
Proof.
  intros Hnet Hok Hsucc Hd Htok Htruthy Hadmin Hnull. run_client.
  rewrite Hnet. simpl. rewrite Hok. simpl.
  destruct body; try (simpl in Hsucc; discriminate).
  simpl in Hsucc, Hd. simpl. rewrite Hsucc. simpl. rewrite Hd.
  destruct d; try (simpl in Htok; discriminate).
  simpl in Htok, Hadmin. simpl. rewrite Htok, Htruthy. simpl.
  rewrite Hadmin. destruct admin; try done; by eexists.
Qed.

(** A login whose reply is accepted and carries no truthy token returns
    a success envelope and stores nothing. *)
Theorem login_without_token_stores_nothing status body email password w :
  (forall r, network r = Response status (Parsed body)) ->
  response_ok status = true ->
  truthy (property_of body P_success) = true ->
  truthy (property_of body P_data ≫= fun d => property_of d P_token) = false ->
  exists w',
    login email password w
      = (w', Returns {| success := true; data := property_of body P_data;
                        message := property_of body P_message;
                        error := None; errors := None |})
    /\ localStorage w' = localStorage w.
Proof.
  intros Hnet Hok Hsucc Htok. run_client.
  rewrite Hnet. simpl. rewrite Hok. simpl.
  destruct body; try (simpl in Hsucc; discriminate).
  simpl in Hsucc, Htok. simpl. rewrite Hsucc. simpl.
  destruct (fields !! "data") as [d|]; simpl in *; [|by eexists].
  destruct d; simpl in *; try (by eexists); rewrite Htok; by eexists.
Qed.

End Sessions.

(** C9, as stated, fails in two places.  A token that is present but empty
    does not authenticate; and a login that the server reports successful
    without returning a token returns a success envelope and leaves
    [isAuthenticated] false. *)
Lemma token_present_yet_not_authenticated :
  (let w : browser Z :=
     {| localStorage := {[ "adminToken" := "" ]};
        location_href := "/dashboard";
        sent := [] |} in
   is_Some (localStorage w !! "adminToken")
   /\ isAuthenticated w = (w, Returns false))
  /\ exists w' r,
       login (environment := answering success_without_token)
         "admin@example.com" "secret" signed_out = (w', Returns r)
       /\ success r = true
       /\ isAuthenticated w' = (w', Returns false).
Proof.
  split.
  - split; [by eexists | reflexivity].
  - eexists _, _. repeat split.
Qed.

Lemma isAuthenticated_login_logout_witness :
  let out :=
    login (environment := answering token_and_admin)
      "admin@example.com" "secret" signed_out in
  isAuthenticated out.1 = (out.1, Returns true).
Proof.
  intros out.
  refine (proj2 (proj2 (proj2
            (isAuthenticated_login_logout
               (environment := answering token_and_admin))))
            "admin@example.com" "secret" signed_out out.1
            {| success := true;
               data := property_of
                         (JObj (<[ "data" :=
                                     JObj (<[ "admin" :=
                                                JObj (<[ "email" := JStr "admin@example.com" ]>
                                                        {[ "id" := JStr "a1" ]}) ]>
                                             {[ "token" := JStr "t0" ]}) ]>
                                  {[ "success" := JBool true ]})) P_data;
               message := None; error := None; errors := None |}
            "t0" _ _ _ _).
  - vm_compute. reflexivity.
  - reflexivity.
  - vm_compute. reflexivity.
  - discriminate.
Defined.


Lemma unauthorized_ends_the_session_witness :
  exists w' r,
    run (environment := answering unauthorized) GetStats signed_in
      = (w', Returns r)
    /\ success r = false
    /\ both_cleared w'
    /\ location_href w' = "/login"
    /\ isAuthenticated w' = (w', Returns false).
Proof.
  apply (unauthorized_ends_the_session (environment := answering unauthorized)
           (JObj {[ "message" := JStr "Invalid token" ]}) signed_in GetStats);
    [intros r; reflexivity | reflexivity].
Defined.

Lemma session_kept_unless_unauthorized_witness :
  localStorage
    (run (environment := answering (Response 500 (Parsed validation_failure)))
       GetStats signed_in).1 = localStorage signed_in
  /\ location_href
       (run (environment := answering (Response 500 (Parsed validation_failure)))
          GetStats signed_in).1 = location_href signed_in.
Proof.
  apply (session_kept_unless_unauthorized
           (environment := answering (Response 500 (Parsed validation_failure)))
           signed_in GetStats);
    [intros r body; discriminate | reflexivity].
Defined.

Lemma login_refused_stores_nothing_witness :
  exists w' r,
    login (environment := answering unauthorized)
      "admin@example.com" "wrong" signed_out = (w', Returns r)
    /\ success r = false
    /\ localStorage w' = localStorage signed_out
    /\ location_href w' = location_href signed_out.
Proof.
  apply (login_refused_stores_nothing (environment := answering unauthorized)
           unauthorized "admin@example.com" "wrong" signed_out);
    [intros r; reflexivity | reflexivity].
Defined.

Lemma login_persists_token_and_email_witness :
  exists w',
    (login (environment := answering token_and_admin)
       "admin@example.com" "secret" signed_out).1 = w'
    /\ localStorage w' !! "adminToken" = Some "t0"
    /\ localStorage w' !! "adminEmail" = Some "admin@example.com".
Proof.
  destruct (login_persists_token_and_email
              (environment := answering token_and_admin)
              200
              (JObj (<[ "data" :=
                          JObj (<[ "admin" :=
                                     JObj (<[ "email" := JStr "admin@example.com" ]>
                                             {[ "id" := JStr "a1" ]}) ]>
                                  {[ "token" := JStr "t0" ]}) ]>
                       {[ "success" := JBool true ]}))
              (JObj (<[ "admin" :=
                          JObj (<[ "email" := JStr "admin@example.com" ]>
                                  {[ "id" := JStr "a1" ]}) ]>
                       {[ "token" := JStr "t0" ]}))
              (JStr "t0")
              (JObj (<[ "email" := JStr "admin@example.com" ]>
                       {[ "id" := JStr "a1" ]}))
              "admin@example.com" "secret" signed_out
              (fun r => eq_refl) eq_refl eq_refl eq_refl eq_refl eq_refl
              eq_refl ltac:(discriminate))
    as (w' & Hrun & Hstore & _).
  exists w'. rewrite Hrun, Hstore. repeat split.
Defined.

Lemma login_without_token_stores_nothing_witness :
  exists w',
    (login (environment := answering success_without_token)
       "admin@example.com" "secret" signed_out).1 = w'
    /\ localStorage w' = localStorage signed_out.
Proof.
  destruct (login_without_token_stores_nothing
              (environment := answering success_without_token)
              200
              (JObj (<[ "data" := JObj ∅ ]> {[ "success" := JBool true ]}))
              "admin@example.com" "secret" signed_out
              (fun r => eq_refl) eq_refl eq_refl eq_refl)
    as (w' & Hrun & Hstore).
  exists w'. by rewrite Hrun.
Defined.


(** ** The requests *)

Section Requests.

Context {number : Type} {host : JsHost number}
  {environment : Environment number}.

Lemma apiRequest_sends endpoint options w :
  headers options = ∅ ->
  exists r,
    sent (apiRequest endpoint options w).1 = (sent w ++ [r])%list
    /\ url r = API_URL import_meta_env ++ endpoint
    /\ method (init r) = method options
    /\ body (init r) = body options
    /\ headers (init r) !! "Authorization"
       = bearer (localStorage w !! "adminToken")
    /\ headers (init r) !! "Content-Type" = Some "application/json".
Proof.
  intros Hh. run_client. rewrite Hh.
  destruct (localStorage w !! "adminToken") as [t|]; simpl;
    [destruct (String.eqb t "")|];
    (destruct (network _) as [e | status [data | e]]; simpl;
     [ | destruct data; split_cases | ]);
    eexists; (split; [reflexivity|]); simpl; repeat split;
    rewrite ?lookup_insert_eq, ?lookup_insert_ne by done; done.
Qed.

Lemma upload_sends endpoint formData w :
  exists r,
    sent (upload endpoint formData w).1 = (sent w ++ [r])%list
    /\ url r = API_URL import_meta_env ++ endpoint
    /\ method (init r) = Some "POST"
    /\ body (init r) = Some (FormBody formData)
    /\ headers (init r) !! "Authorization"
       = bearer (localStorage w !! "adminToken")
    /\ headers (init r) !! "Content-Type" = None.
Proof.
  run_client.
  destruct (localStorage w !! "adminToken") as [t|]; simpl;
    [destruct (String.eqb t "")|];
    (destruct (network _) as [e | status [data | e]]; simpl;
     [ | destruct data; split_cases | ]);
    eexists; (split; [reflexivity|]); simpl; repeat split; done.
Qed.

Ltac unfold_operations :=
  unfold me, getProducts, getProduct, createProduct, updateProduct,
    updatePricing, deleteProduct, getCategories, uploadImage,
    uploadImages, deleteImage, getOrders, getStats, getOrder,
    updateStatus, getUserOrders, getProducts_endpoint, getOrders_endpoint,
    with_query.

Lemma authenticated_request_headers w op :
  authenticated op = true ->
  exists r,
    sent (run op w).1 = (sent w ++ [r])%list
    /\ headers (init r) !! "Authorization"
       = bearer (localStorage w !! "adminToken").
Proof.
  intros Hop. destruct op; try discriminate; simpl; unfold_operations;
    match goal with
    | |- context [apiRequest ?e ?o w] =>
        destruct (apiRequest_sends e o w eq_refl)
          as (r & Hs & _ & _ & _ & Ha & _)
    | |- context [upload ?e ?f w] =>
        destruct (upload_sends e f w) as (r & Hs & _ & _ & _ & Ha & _)
    end; by exists r.
Qed.

(** Every authenticated operation sends exactly one request, and the
    request carries the stored token as [Authorization: Bearer], or no
    such header when storage holds no token or an empty one. *)
Theorem stored_token_is_sent_as_bearer w op :
  authenticated op = true ->
  exists r,
    sent (run op w).1 = (sent w ++ [r])%list
    /\ headers (init r) !! "Authorization"
       = match localStorage w !! "adminToken" with
         | Some t => if String.eqb t "" then None else Some ("Bearer " ++ t)
         | None => None
         end.
Proof. exact (authenticated_request_headers w op). Qed.

(** Every authenticated operation sends its request to the base URL of
    the build followed by a path under [/api/admin/]. *)
Theorem requests_go_under_api_admin w op :
  authenticated op = true ->
  exists r path,
    sent (run op w).1 = (sent w ++ [r])%list
    /\ url r = API_URL import_meta_env ++ path
    /\ String.prefix "/api/admin/" path = true.
Proof.
  intros Hop. destruct op; try discriminate; simpl; unfold_operations;
    match goal with
    | |- context [apiRequest ?e ?o w] =>
        destruct (apiRequest_sends e o w eq_refl) as (r & Hs & Hu & _);
        exists r, e
    | |- context [upload ?e ?f w] =>
        destruct (upload_sends e f w) as (r & Hs & Hu & _);
        exists r, e
    end; done.
Qed.

(** The operations through [apiRequest] label their request as JSON and
    never send a form; the two uploads send a form with no content type
    of their own, the file under [image], the files under [images] in
    their order. *)
Theorem json_calls_and_form_uploads w op :
  authenticated op = true ->
  exists r,
    sent (run op w).1 = (sent w ++ [r])%list
    /\ match op with
       | UploadImage file =>
           headers (init r) !! "Content-Type" = None
           /\ body (init r) = Some (FormBody [("image", file)])
       | UploadImages files =>
           headers (init r) !! "Content-Type" = None
           /\ body (init r)
              = Some (FormBody (map (fun file => ("images", file)) files))
       | _ =>
           headers (init r) !! "Content-Type" = Some "application/json"
           /\ match body (init r) with
              | Some (FormBody _) => False
              | _ => True
              end
       end.
Proof.
  intros Hop. destruct op; try discriminate; simpl; unfold_operations;
    match goal with
    | |- context [apiRequest ?e ?o w] =>
        destruct (apiRequest_sends e o w eq_refl)
          as (r & Hs & _ & _ & Hb & _ & Hc)
    | |- context [upload ?e ?f w] =>
        destruct (upload_sends e f w) as (r & Hs & _ & _ & Hb & _ & Hc)
    end; exists r; (split; [exact Hs|]); split; try done;
    by rewrite Hb.
Qed.

(** [login] sends exactly one POST with the credentials as JSON and never
    the stored token.  Its base URL is the environment value or
    localhost, which is the base URL of the other operations in every
    build but a production build without the environment value. *)
Theorem login_request email password w :
  exists r,
    sent (login email password w).1 = (sent w ++ [r])%list
    /\ url r = string_or (VITE_API_URL import_meta_env) "http://localhost:3000"
               ++ "/api/admin/auth/login"
    /\ (PROD import_meta_env = false
        \/ string_truthy (VITE_API_URL import_meta_env) = true ->
        url r = API_URL import_meta_env ++ "/api/admin/auth/login")
    /\ method (init r) = Some "POST"
    /\ headers (init r) !! "Authorization" = None
    /\ body (init r)
       = Some (JsonBody (JObj (<[ "password" := JStr password ]>
                                 {[ "email" := JStr email ]}))).
Proof.
  run_client.
  destruct (network _) as [e | status [data | e]]; simpl;
    [ | destruct data; split_cases | ];
    eexists; (split; [reflexivity|]); simpl; repeat split; try done.
  all: unfold API_URL; intros [-> | Hv]; [done|];
    destruct (PROD import_meta_env); [|done];
    destruct (VITE_API_URL import_meta_env) as [v|]; [|done];
    simpl in *; by destruct (String.eqb v "").
Qed.

(** The token that a login stores is the one the next authenticated
    operation sends; and after [logout] no operation sends a token. *)
Theorem next_call_carries_the_login_token :
  (forall email password (w w' : browser number) r tok op,
     login email password w = (w', Returns r) ->
     success r = true ->
     data r ≫= (fun d => property_of d P_token) = Some (JStr tok) ->
     tok <> "" ->
     authenticated op = true ->
     exists req,
       sent (run op w').1 = (sent w' ++ [req])%list
       /\ headers (init req) !! "Authorization" = Some ("Bearer " ++ tok))
  /\ (forall (w : browser number) op,
        authenticated op = true ->
        exists req,
          sent (run op (logout w).1).1 = (sent w ++ [req])%list
          /\ headers (init req) !! "Authorization" = None).
Proof.
  split.
  - intros email password w w' r tok op Hrun Hs Htok Hne Hop.
    destruct (authenticated_request_headers w' op Hop) as (req & Hsent & Ha).
    exists req. split; [exact Hsent|]. rewrite Ha.
    rewrite (login_success_stores_token _ _ _ _ _ _ Hrun Hs Htok Hne).
    simpl. by destruct (String.eqb_spec tok "").
  - intros w op Hop.
    destruct (authenticated_request_headers (logout w).1 op Hop)
      as (req & Hsent & Ha).
    exists req. split; [exact Hsent|]. rewrite Ha. simpl.
    rewrite lookup_delete_ne by done. by rewrite lookup_delete_eq.
Qed.

End Requests.

Lemma stored_token_is_sent_as_bearer_witness :
  exists r,
    sent (run (environment := answering unauthorized) GetStats signed_in).1
      = [r]
    /\ headers (init r) !! "Authorization" = Some "Bearer tok".
Proof.
  exact (stored_token_is_sent_as_bearer (environment := answering unauthorized)
           signed_in GetStats eq_refl).
Defined.

Lemma requests_go_under_api_admin_witness :
  exists r path,
    sent (run (environment := answering unauthorized)
            (DeleteImage "products/tooth 1") signed_in).1 = [r]
    /\ url r = API_URL production_build ++ path
    /\ String.prefix "/api/admin/" path = true.
Proof.
  exact (requests_go_under_api_admin (environment := answering unauthorized)
           signed_in (DeleteImage "products/tooth 1") eq_refl).
Defined.

Lemma next_call_carries_the_login_token_witness :
  let w' :=
    (login (environment := answering token_and_admin)
       "admin@example.com" "secret" signed_out).1 in
  exists req,
    sent (run (environment := answering token_and_admin) GetStats w').1
      = (sent w' ++ [req])%list
    /\ headers (init req) !! "Authorization" = Some "Bearer t0".
Proof.
  intros w'.
  refine (proj1 (next_call_carries_the_login_token
                   (environment := answering token_and_admin))
            "admin@example.com" "secret" signed_out w'
            {| success := true;
               data := property_of
                         (JObj (<[ "data" :=
                                     JObj (<[ "admin" :=
                                                JObj (<[ "email" := JStr "admin@example.com" ]>
                                                        {[ "id" := JStr "a1" ]}) ]>
                                             {[ "token" := JStr "t0" ]}) ]>
                                  {[ "success" := JBool true ]})) P_data;
               message := None; error := None; errors := None |}
            "t0" GetStats _ _ _ _ _).
  - vm_compute. reflexivity.
  - reflexivity.
  - vm_compute. reflexivity.
  - discriminate.
  - reflexivity.
Defined.

Lemma login_request_witness :
  exists r,
    sent (login (environment := local_backend unauthorized)
            "admin@example.com" "secret" signed_in).1 = [r]
    /\ url r = API_URL development_build ++ "/api/admin/auth/login"
    /\ headers (init r) !! "Authorization" = None.
Proof.
  destruct (login_request (environment := local_backend unauthorized)
              "admin@example.com" "secret" signed_in)
    as (r & Hs & _ & Hagree & _ & Hauth & _).
  exists r. split; [exact Hs|]. split; [|exact Hauth].
  exact (Hagree (or_introl eq_refl)).
Defined.

Lemma json_calls_and_form_uploads_witness :
  exists r,
    sent (run (environment := answering unauthorized)
            (UploadImage png) signed_in).1 = [r]
    /\ headers (init r) !! "Content-Type" = None
    /\ body (init r) = Some (FormBody [("image", png)]).
Proof.
  exact (json_calls_and_form_uploads (environment := answering unauthorized)
           signed_in (UploadImage png) eq_refl).
Defined.


(** ** Percent-encoded path segments *)

Lemma encoded_byte_decodes c rest :
  percent_decode
    ((if uri_unreserved c then String c "" else percent_encode_byte c)
     ++ rest)
  = String c (percent_decode rest).
Proof.
  destruct c as [[] [] [] [] [] [] [] []]; reflexivity.
Qed.

Lemma percent_decode_encodeURIComponent s :
  percent_decode (encodeURIComponent s) = s.
Proof.
  induction s as [|c s IH]; [reflexivity|].
  simpl. rewrite encoded_byte_decodes. by rewrite IH.
Qed.

(** [encodeURIComponent] loses nothing: two identifiers with the same
    encoding are the same identifier, so two images never share a delete
    path. *)
Theorem encodeURIComponent_is_injective s1 s2 :
  encodeURIComponent s1 = encodeURIComponent s2 -> s1 = s2.
Proof.
  intros Heq. rewrite <- (percent_decode_encodeURIComponent s1),
    <- (percent_decode_encodeURIComponent s2). by rewrite Heq.
Qed.




Section Segments.

Context {number : Type} {host : JsHost number}
  {environment : Environment number}.


End Segments.

Lemma encodeURIComponent_is_injective_witness :
  "products/tooth 1" = "products/tooth 1".
Proof.
  exact (encodeURIComponent_is_injective
           "products/tooth 1" "products/tooth 1" eq_refl).
Defined.


(** ** What the envelopes carry *)

Section Contents.

Context {number : Type} {host : JsHost number}
  {environment : Environment number}.

(** For a response outside 2xx whose body parses to a value other than
    [null], the failure envelope of [apiRequest] takes its message from
    the body's [message], else from its [error], else is "Request
    failed"; [error] and [errors] are passed on as they are. *)
Theorem error_envelope_fields status body endpoint options w :
  (forall r, network r = Response status (Parsed body)) ->
  response_ok status = false ->
  body <> JNull ->
  exists w' r,
    apiRequest endpoint options w = (w', Returns r)
    /\ success r = false
    /\ message r
       = (if truthy (property_of body P_message)
          then property_of body P_message
          else if truthy (property_of body P_error)
               then property_of body P_error
               else Some (JStr "Request failed"))
    /\ error r = property_of body P_error
    /\ errors r = property_of body P_errors
    /\ data r = None.
Proof.
  intros Hnet Hok Hbody. run_client. rewrite Hnet. simpl. rewrite Hok. simpl.
  destruct body; try done; split_cases; eexists _, _;
    (split; [reflexivity|]); done.
Qed.

(** An upload that the server accepts returns the body's [data] field as
    it is, absent when the body has none: unlike [apiRequest], the uploads
    do not fall back to the whole body.  Storage is untouched. *)
Theorem upload_payload_is_the_data_field status body endpoint formData w :
  (forall r, network r = Response status (Parsed body)) ->
  response_ok status = true ->
  body <> JNull ->
  exists w',
    upload endpoint formData w
      = (w', Returns {| success := true;
                        data := property_of body P_data;
                        message := property_of body P_message;
                        error := None; errors := None |})
    /\ localStorage w' = localStorage w.
Proof.
  intros Hnet Hok Hbody. run_client. rewrite Hnet. simpl. rewrite Hok. simpl.
  destruct body; try done; split_cases; by eexists.
Qed.

(** A body that parses to [null] makes [apiRequest] return a failure
    envelope whatever the status, a 2xx included: reading a property of
    [null] throws, and the [catch] clause reports the [TypeError] with
    "Network error" as [error]. *)
Theorem null_body_is_reported_as_a_failure status endpoint options w :
  (forall r, network r = Response status (Parsed JNull)) ->
  exists w' r,
    apiRequest endpoint options w = (w', Returns r)
    /\ success r = false
    /\ message r
       = Some (JStr (nullish_read_message "null"
                       (if response_ok status then "data" else "message")))
    /\ error r = Some (JStr "Network error").
Proof.
  intros Hnet. run_client. rewrite Hnet. simpl.
  destruct (response_ok status); split_cases; eexists _, _;
    (split; [reflexivity|]); done.
Qed.

End Contents.

Lemma error_envelope_fields_witness :
  exists w' r,
    apiRequest (environment := answering (Response 422 (Parsed validation_failure)))
      "/api/admin/products" no_options signed_in = (w', Returns r)
    /\ success r = false
    /\ message r = Some (JStr "Validation failed")
    /\ error r = Some (JStr "Validation failed")
    /\ errors r = property_of validation_failure P_errors
    /\ data r = None.
Proof.
  exact (error_envelope_fields
           (environment := answering (Response 422 (Parsed validation_failure)))
           422 validation_failure "/api/admin/products" no_options signed_in
           (fun r => eq_refl) eq_refl ltac:(discriminate)).
Defined.

Lemma upload_payload_is_the_data_field_witness :
  exists w',
    upload (environment := answering (Response 200 (Parsed uploaded)))
      "/api/admin/upload/image" [("image", png)] signed_in
      = (w', Returns {| success := true;
                        data := property_of uploaded P_data;
                        message := None; error := None; errors := None |})
    /\ localStorage w' = localStorage signed_in.
Proof.
  exact (upload_payload_is_the_data_field
           (environment := answering (Response 200 (Parsed uploaded)))
           200 uploaded "/api/admin/upload/image" [("image", png)] signed_in
           (fun r => eq_refl) eq_refl ltac:(discriminate)).
Defined.

Lemma null_body_is_reported_as_a_failure_witness :
  exists w' r,
    apiRequest (environment := answering (Response 200 (Parsed JNull)))
      "/api/admin/orders/stats" no_options signed_in = (w', Returns r)
    /\ success r = false
    /\ message r
       = Some (JStr "Cannot read properties of null (reading 'data')")
    /\ error r = Some (JStr "Network error").
Proof.
  exact (null_body_is_reported_as_a_failure
           (environment := answering (Response 200 (Parsed JNull)))
           200 "/api/admin/orders/stats" no_options signed_in
           (fun r => eq_refl)).
Defined.


(** ** The pages *)

(** The sidebar highlights at most one entry for any location, and the
    Analytics entry for the bare [/dashboard]. *)
Theorem at_most_one_menu_item_is_active pathname :
  (length (List.filter (isActive pathname) menuItems) <= 1)%nat
  /\ (pathname = "/dashboard" ->
      List.filter (isActive pathname) menuItems
      = [("Analytics", "/dashboard/analytics")]).
Proof.
  split; [|by intros ->].
  unfold menuItems, isActive. simpl.
  destruct (String.eqb_spec pathname "/dashboard") as [-> | _];
    [simpl; lia|].
  destruct (String.eqb_spec pathname "/dashboard/analytics") as [-> | _];
    [simpl; lia|].
  destruct (String.eqb_spec pathname "/dashboard/products") as [-> | _];
    [simpl; lia|].
  destruct (String.eqb_spec pathname "/dashboard/products/add") as [-> | _];
    [simpl; lia|].
  destruct (String.eqb_spec pathname "/dashboard/orders") as [-> | _];
    [simpl; lia|].
  destruct (String.eqb_spec pathname "/dashboard/orders/detail") as [-> | _];
    [simpl; lia|].
  destruct (String.eqb_spec pathname "/dashboard/logs") as [-> | _];
    simpl; lia.
Qed.

Lemma filter_index_above {A} index k (l : list A) :
  (index < k)%nat ->
  filter_index (fun j => negb (j =? index)%nat) k l = l.
Proof.
  revert k. induction l as [|x l IH]; intros k Hk; simpl; [done|].
  destruct (Nat.eqb_spec k index); [lia|]. simpl. f_equal. apply IH. lia.
Qed.

Lemma filter_index_delete {A} index i (l : list A) :
  (i <= index)%nat ->
  filter_index (fun j => negb (j =? index)%nat) i l = delete (index - i)%nat l.
Proof.
  revert i. induction l as [|x l IH]; intros i Hi; simpl; [done|].
  destruct (Nat.eqb_spec i index) as [-> | Hne]; simpl.
  - rewrite Nat.sub_diag. simpl. apply filter_index_above. lia.
  - replace (index - i)%nat with (S (index - S i)) by lia. simpl.
    f_equal. apply IH. lia.
Qed.

Lemma length_delete_lower {A} i (l : list A) :
  (length l - 1 <= length (delete i l))%nat.
Proof.
  revert i. induction l as [|x l IH]; intros [|i]; simpl; try lia.
  specialize (IH i). lia.
Qed.

(** Removing a URL input never empties the dialog: from a list with an
    input, the new list has one too.  With more than one input the new
    list is the old one without the input at the index (the old one again
    when the index is past the end); no input is invented. *)
Theorem handleRemoveUrlInput_keeps_an_input index urlInputs :
  (1 <= length urlInputs)%nat ->
  (1 <= length (handleRemoveUrlInput index urlInputs))%nat
  /\ handleRemoveUrlInput index urlInputs
     = (if (1 <? length urlInputs)%nat then delete index urlInputs
        else urlInputs)
  /\ (forall url, url ∈ handleRemoveUrlInput index urlInputs ->
                  url ∈ urlInputs).
Proof.
  intros Hlen. unfold handleRemoveUrlInput.
  destruct (Nat.ltb_spec 1 (length urlInputs)) as [Hmany | Hone];
    [|by repeat split].
  rewrite filter_index_delete by lia. rewrite Nat.sub_0_r.
  split; [|split; [done|]].
  - pose proof (length_delete_lower index urlInputs). lia.
  - intros url Hurl. eapply elem_of_sublist; [exact Hurl|].
    apply sublist_delete.
Qed.


Section Pages.

Context {number : Type} {host : JsHost number}
  {environment : Environment number}.

(** The effect of [AdminDashboard] sends the browser to the login page
    exactly when [isAuthenticated] is false, and touches nothing else. *)
Theorem dashboard_guard_agrees_with_isAuthenticated (w : browser number) :
  exists b,
    isAuthenticated w = (w, Returns b)
    /\ localStorage (AdminDashboard_effect w).1 = localStorage w
    /\ sent (AdminDashboard_effect w).1 = sent w
    /\ location_href (AdminDashboard_effect w).1
       = (if b then location_href w else "/login").
Proof.
  exists (string_truthy (localStorage w !! "adminToken")).
  split; [reflexivity|]. unfold AdminDashboard_effect, navigate. run_client.
  by destruct (string_truthy (localStorage w !! "adminToken")).
Qed.

(** The logout button of the sidebar leaves storage as [logout] of the
    client does, with both entries cleared, and goes to the login page;
    it sends nothing. *)
Theorem handleLogout_signs_out (w : browser number) :
  exists w',
    handleLogout w = (w', Returns tt)
    /\ both_cleared w'
    /\ location_href w' = "/login"
    /\ localStorage w' = localStorage (logout w).1
    /\ sent w' = sent w
    /\ isAuthenticated w' = (w', Returns false).
Proof.
  eexists. split; [reflexivity|].
  destruct (session_ended (localStorage w) (sent w)) as (Hc & Hh & Ha).
  repeat split; try apply Hc. exact Ha.
Qed.

(** [handleFileUpload] uploads the files that pass its filter and no
    other: each has an allowed image type and at most 10 MB.  Nothing is
    sent when none passes; one valid file goes to the single-image
    endpoint under [image]; two or more go to the multi-image endpoint
    under [images], in their order. *)
Theorem handleFileUpload_sends_only_valid_files files (w : browser number) :
  Forall (fun file => In (file_type file) validTypes
                      /\ file_size file <= 10485760)
    (validFiles files)
  /\ match validFiles files with
     | [] => handleFileUpload files w = (w, Returns None)
     | [file] =>
         exists r,
           sent (handleFileUpload files w).1 = (sent w ++ [r])%list
           /\ url r = API_URL import_meta_env ++ "/api/admin/upload/image"
           /\ body (init r) = Some (FormBody [("image", file)])
     | several =>
         exists r,
           sent (handleFileUpload files w).1 = (sent w ++ [r])%list
           /\ url r = API_URL import_meta_env ++ "/api/admin/upload/images"
           /\ body (init r)
              = Some (FormBody (map (fun file => ("images", file)) several))
     end.
Proof.
  split.
  - unfold validFiles. apply Forall_forall. intros file Hin.
    apply list_elem_of_In, filter_In in Hin as [_ Hv].
    unfold valid_file in Hv. apply andb_true_iff in Hv as [Ht Hs].
    split.
    + apply existsb_exists in Ht as (t & Hin & Heq).
      apply String.eqb_eq in Heq. by rewrite Heq.
    + apply negb_true_iff, Z.ltb_ge in Hs. lia.
  - unfold handleFileUpload.
    destruct (validFiles files) as [|file [|file' rest]]; [done| |].
    + unfold uploadImage, bind.
      destruct (upload_sends "/api/admin/upload/image" [("image", file)] w)
        as (r & Hs & Hu & _ & Hb & _).
      exists r.
      destruct (upload _ _ w) as [w' [resp | t]]; simpl in *; done.
    + unfold uploadImages, bind.
      destruct (upload_sends "/api/admin/upload/images"
                  (map (fun f => ("images", f)) (file :: file' :: rest)) w)
        as (r & Hs & Hu & _ & Hb & _).
      exists r.
      destruct (upload _ _ w) as [w' [resp | t]]; simpl in *; done.
Qed.

End Pages.

Lemma handleRemoveUrlInput_keeps_an_input_witness :
  (1 <= length (handleRemoveUrlInput 0 ["https://a.example/1.png"]))%nat.
Proof.
  exact (proj1 (handleRemoveUrlInput_keeps_an_input
                  0 ["https://a.example/1.png"] (le_n 1))).
Defined.

Lemma at_most_one_menu_item_is_active_witness :
  List.filter (isActive "/dashboard") menuItems
  = [("Analytics", "/dashboard/analytics")].
Proof.
  exact (proj2 (at_most_one_menu_item_is_active "/dashboard") eq_refl).
Defined.

(** ** Where the code departs from its own intent *)

(** C2: a 401 whose body is not JSON.  [response.json()] throws before the
    status is looked at, so the token and the email stay in storage and
    the location is not changed. *)
Example unparseable_401_keeps_the_session :
  exists w' r,
    me (environment := answering (Response 401 (BodyRejects html_error_page)))
      signed_in = (w', Returns r)
    /\ success r = false
    /\ localStorage w' !! "adminToken" = Some "tok"
    /\ localStorage w' !! "adminEmail" = Some "admin@example.com"
    /\ location_href w' = "/dashboard".
Proof. eexists _, _. repeat split. Qed.

(** C6: a login reply that carries a token and no [admin].  The token is
    stored, reading [admin.email] then throws, and the caller gets a
    failure envelope: a token without an email is left in storage. *)
Example login_without_admin_stores_the_token :
  exists w' r,
    login (environment := answering token_without_admin)
      "admin@example.com" "secret" signed_out = (w', Returns r)
    /\ success r = false
    /\ localStorage w' !! "adminToken" = Some "t0"
    /\ localStorage w' !! "adminEmail" = None.
Proof. eexists _, _. repeat split. Qed.

(** C7: [login] in a production build with no [VITE_API_URL].  The base
    URL of the module is empty, and [me] goes to the same origin, while
    [login] computes a base of its own and goes to localhost. *)
Example production_login_goes_to_localhost :
  API_URL production_build = ""
  /\ (exists w' out r,
        me (environment := answering (FetchRejects NonError)) signed_out
          = (w', out)
        /\ sent w' = [r]
        /\ url r = "/api/admin/auth/me")
  /\ (exists w' out r,
        login (environment := answering (FetchRejects NonError))
          "admin@example.com" "secret" signed_out = (w', out)
        /\ sent w' = [r]
        /\ url r = "http://localhost:3000/api/admin/auth/login").
Proof.
  split; [reflexivity|]. split; eexists _, _, _; repeat split.
Qed.

(** C10: the same reply as for C6, on a browser that is signed in.  The
    run ends in a failure envelope and has written one of the two entries:
    the token is the new one and the email is still the old one. *)
Example failed_login_replaces_the_token_only :
  exists w' r,
    login (environment := answering token_without_admin)
      "other@example.com" "secret" signed_in = (w', Returns r)
    /\ success r = false
    /\ localStorage signed_in !! "adminToken" = Some "tok"
    /\ localStorage w' !! "adminToken" = Some "t0"
    /\ localStorage w' !! "adminEmail" = Some "admin@example.com".
Proof. eexists _, _. repeat split. Qed.
